(** * alac-rip: the first-run bootstrap of [main.py]

    A shallow embedding of [src/main.py] (one Python script): the
    first-run check at module level, [firstsetup] and [start].  The
    script is a sequence of file-system operations, environment updates
    and calls to external programs, so the embedding is a state-and-
    exception monad over an explicit file system, the [PATH] variable and
    a log of the operations performed.  What the script cannot decide by
    itself (the effective user id, the outcome of [apt-get] and
    [git clone], the bytes behind a URL, the members of a ZIP file, an
    operating-system refusal of [chmod] or [symlink]) is a field of the
    record [World]. *)

From Stdlib Require Import ZArith NArith String Ascii List Bool Lia.
From stdpp Require Import gmap strings list fin_maps.

Local Open Scope string_scope.
Local Open Scope list_scope.
Local Open Scope Z_scope.

(** ** Paths and the file system *)

(** An absolute path is the list of its components below the root; the file
    system is a finite map from paths to nodes.  A regular file carries its
    twelve permission bits and its contents (a sequence of characters, as
    Python's text layer presents them, or of bytes for binary files); a
    directory carries its permission bits; a symbolic link carries its
    target, an absolute path, as are the targets of the links the script
    creates. *)
Abbreviation path := (list string).

Inductive node : Type :=
  | File (perm : Z) (data : list N)
  | Dir (perm : Z)
  | Symlink (target : path).

Abbreviation FS := (gmap (list string) node).

(** Python's octal literals: [oct 755] is [0o755]. *)
Fixpoint oct_digits (fuel : nat) (n : Z) : Z :=
  match fuel with
  | O => 0
  | S fuel' => if n =? 0 then 0 else 8 * oct_digits fuel' (n / 10) + n mod 10
  end.

Definition oct (n : Z) : Z := oct_digits 12 n.

Definition S_IFREG : Z := Eval cbv in oct 100000.
Definition S_IFDIR : Z := Eval cbv in oct 40000.
Definition S_IXALL : Z := Eval cbv in oct 111.
Definition S_IMODE : Z := Eval cbv in oct 7777.

(** [str(Path)] of an absolute path. *)
Fixpoint path_str_aux (p : path) : string :=
  match p with
  | [] => ""
  | c :: p' => "/" +:+ c +:+ path_str_aux p'
  end.

Definition path_str (p : path) : string :=
  match p with
  | [] => "/"
  | _ => path_str_aux p
  end.

(** [Path.name]: the last component. *)
Definition name (p : path) : string := default "" (last p).

(** [Path / child]. *)
Definition child (d : path) (n : string) : path := d ++ [n].

(** Following symbolic links at the last component, at most [MAXSYMLINKS]
    of them (the kernel answers ELOOP beyond that): the path and node
    reached, which is never a symbolic link. *)
Fixpoint resolve_fuel (n : nat) (fs : FS) (p : path) : option (path * node) :=
  match fs !! p with
  | None => None
  | Some (Symlink t) =>
      match n with
      | O => None
      | S n' => resolve_fuel n' fs t
      end
  | Some nd => Some (p, nd)
  end.

Definition MAXSYMLINKS : nat := 40.

Definition resolve (fs : FS) (p : path) : option (path * node) :=
  resolve_fuel MAXSYMLINKS fs p.

(** [Path.exists()], [Path.is_file()], [Path.is_dir()] follow symbolic links;
    [lexists] and [Path.is_symlink()] do not. *)
Definition exists_ (fs : FS) (p : path) : bool :=
  match resolve fs p with Some _ => true | None => false end.

Definition is_file (fs : FS) (p : path) : bool :=
  match resolve fs p with Some (_, File _ _) => true | _ => false end.

Definition is_dir (fs : FS) (p : path) : bool :=
  match resolve fs p with Some (_, Dir _) => true | _ => false end.

Definition lexists (fs : FS) (p : path) : bool :=
  match fs !! p with Some _ => true | None => false end.

Definition is_symlink (fs : FS) (p : path) : bool :=
  match fs !! p with Some (Symlink _) => true | _ => false end.

(** [os.access(p, os.X_OK)] for the superuser ([firstsetup] goes on only
    with effective user id 0): a regular file needs one execute bit. *)
Definition access_X_OK (fs : FS) (p : path) : bool :=
  match resolve fs p with
  | Some (_, File perm _) => negb (Z.land perm S_IXALL =? 0)
  | Some (_, Dir _) => true
  | _ => false
  end.

(** [Path.stat().st_mode]: type bits and permissions of the node reached. *)
Definition st_mode (fs : FS) (p : path) : option Z :=
  match resolve fs p with
  | Some (_, File perm _) => Some (Z.lor S_IFREG perm)
  | Some (_, Dir perm) => Some (Z.lor S_IFDIR perm)
  | _ => None
  end.

(** [d.glob(pat + "*")]: the entries directly inside [d] whose name starts
    with [pat], in the order the map enumerates them (the script takes the
    order the operating system gives).  Directories are taken literally: what
    lies behind a link to a directory is not listed. *)
Definition in_dir (d : path) (p : path) : bool :=
  match p with
  | [] => false
  | _ => bool_decide (removelast p = d)
  end.

Definition glob (fs : FS) (d : path) (pat : string) : list path :=
  filter (fun p => in_dir d p && String.prefix pat (name p) = true)
         (map fst (map_to_list fs)).

(** ** The world outside the script *)

(** [subprocess.run(..., check=True)]: the program ran and exited with
    status zero, or with another status ([CalledProcessError]), or could not
    be started at all ([FileNotFoundError]). *)
Inductive process_result : Type := ExitZero | ExitNonZero | NotStarted.

(** The members of a ZIP archive, or the files of a cloned repository: a
    path relative to the place they are unpacked at, and a directory or a
    file with its contents. *)
Inductive member : Type := MDir | MFile (data : list N).

Abbreviation tree := (list (list string * member)).

Record World : Type := mkWorld {
  PROJECT_DIR : path;                      (* Path(__file__).resolve().parent *)
  w_geteuid : Z;                           (* os.geteuid() *)
  w_apt_get : process_result;              (* apt-get install -y ... *)
  w_http : string -> option (list N);      (* the body behind a URL, if fetched *)
  w_zip : list N -> option tree;           (* the members, unless BadZipFile *)
  w_git_clone : process_result;            (* git clone ... *)
  w_repository : tree;                     (* what a successful clone checks out *)
  w_chmod_refused : path -> bool;          (* chmod(2) fails on this file *)
  w_symlink_refused : path -> bool;        (* symlink(2) fails at this link path *)
  w_umask : Z;                             (* the process's file creation mask *)
  w_decimal : N -> bool                    (* Unicode category Nd, beyond ASCII *)
}.

Definition BENTO4_DIR (w : World) : path := child (PROJECT_DIR w) "bento4".
Definition WRAPPER_DIR (w : World) : path := child (PROJECT_DIR w) "wrapper".
Definition AMD_DIR (w : World) : path := child (PROJECT_DIR w) "apple-music-downloader".
Definition marker_file (w : World) : path := child (PROJECT_DIR w) "firstrun".

Definition BENTO4_URL : string :=
  "https://www.bok.net/Bento4/binaries/Bento4-SDK-1-6-0-641.x86_64-unknown-linux.zip".
Definition WRAPPER_URL : string :=
  "https://github.com/WorldObservationLog/wrapper/releases/download/Wrapper.x86_64.0df45b5/Wrapper.x86_64.0df45b5.zip".
Definition usr_local_bin : path := ["usr"; "local"; "bin"].

(** ** Operations performed and lines printed *)

(** The lines the script prints that report an outcome; the [DEBUG:] lines
    and the progress lines that announce the next operation are left out. *)
Inductive msg : Type :=
  | MustBeRoot
  | PackagesInstalled
  | Bento4Installed
  | BinDirMissing (d : path)
  | ChmodSet (n : string)
  | ChmodFailed (n : string)
  | AlreadyExists (n : string)
  | SymlinkCreated (n : string)
  | SymlinkFailed (n : string)
  | Summary (success_count error_count : Z)
  | FoundSymlinks (n : nat)
  | Verified (n : string) (target : path)
  | NoUsrLocalBin
  | Bento4FolderNotFound
  | Bento4Skipped
  | CreatingMissing
  | CreatedSymlink (n : string)
  | AlreadyAvailable
  | CouldNotVerify (d : path)
  | WrapperChmodSet
  | WrapperBinaryMissing
  | WrapperChmodFailed
  | WrapperExtracted
  | WrapperSkipped
  | Cloned
  | GoModFixed
  | GoModFailed
  | CloneSkipped
  | SetupComplete
  | SetupFailed
  | Starting.

Inductive event : Type :=
  | Egeteuid
  | Eapt_get
  | Eurlretrieve (url : string) (dest : path)
  | Emkdir (d : path)
  | Eextractall (zip d : path)
  | Eremove (p : path)
  | Echmod (p : path) (mode : Z)
  | Esymlink (src link : path)
  | Egit_clone (d : path)
  | Eopen_w (p : path)
  | Eputenv_PATH (value : string)
  | Eapp_run (host : string) (port : Z)
  | Eprint (m : msg).

(** ** The state and the monad *)

Record State : Type := mkState {
  files : FS;                  (* the file system *)
  environ_PATH : option string; (* os.environ.get("PATH") *)
  trace : list event           (* what happened so far, oldest first *)
}.

Inductive exn : Type := CalledProcessError | OSError | BadZipFile | KeyError.

(** How a piece of Python ends: with a value, with an exception, with
    [sys.exit(code)] (a [SystemExit], which [except Exception] lets
    through), or with a [return] out of the enclosing function. *)
Inductive result (A : Type) : Type :=
  | Value (a : A)
  | Raised (e : exn)
  | Exited (code : Z)
  | Returned.
Arguments Value {A} a.
Arguments Raised {A} e.
Arguments Exited {A} code.
Arguments Returned {A}.

Definition M (A : Type) : Type := State -> result A * State.

Definition ret {A} (a : A) : M A := fun st => (Value a, st).

Definition bind {A B} (m : M A) (k : A -> M B) : M B :=
  fun st =>
    match m st with
    | (Value a, st') => k a st'
    | (Raised e, st') => (Raised e, st')
    | (Exited c, st') => (Exited c, st')
    | (Returned, st') => (Returned, st')
    end.

Notation "'let*' x ':=' m 'in' k" := (bind m (fun x => k))
  (at level 10, x name, m at level 100, k at level 200).
Notation "m >> k" := (bind m (fun _ => k))
  (at level 90, right associativity).

Definition raise {A} (e : exn) : M A := fun st => (Raised e, st).
Definition sys_exit {A} (code : Z) : M A := fun st => (Exited code, st).
Definition return_ {A} : M A := fun st => (Returned, st).

(** [try: body  except E: handler], where [catches] tells the exceptions
    of class [E]. *)
Definition try_except {A} (body : M A) (catches : exn -> bool) (handler : M A) : M A :=
  fun st =>
    match body st with
    | (Raised e, st') => if catches e then handler st' else (Raised e, st')
    | r => r
    end.

Definition Exception : exn -> bool := fun _ => true.
Definition is_CalledProcessError (e : exn) : bool :=
  match e with CalledProcessError => true | _ => false end.

(** A call of a function whose body may [return]. *)
Definition call (body : M unit) : M unit :=
  fun st =>
    match body st with
    | (Returned, st') => (Value tt, st')
    | r => r
    end.

(** [for x in xs: body x]. *)
Fixpoint for_each {A} (xs : list A) (body : A -> M unit) : M unit :=
  match xs with
  | [] => ret tt
  | x :: xs' => body x >> for_each xs' body
  end.

Definition get_files : M FS := fun st => (Value (files st), st).
Definition set_files (fs : FS) : M unit :=
  fun st => (Value tt, mkState fs (environ_PATH st) (trace st)).
Definition emit (e : event) : M unit :=
  fun st => (Value tt, mkState (files st) (environ_PATH st) (trace st ++ [e])).
Definition print (m : msg) : M unit := emit (Eprint m).

(** ** System calls and library calls *)

(** Permission bits of a node created with mode [mode] under the umask. *)
Definition creat_perm (w : World) (mode : Z) : Z := Z.land mode (Z.lnot (w_umask w)).

(** Where [open(p, "w")] writes: links are followed, also dangling ones. *)
Fixpoint write_target (n : nat) (fs : FS) (p : path) : option path :=
  match fs !! p with
  | Some (Symlink t) =>
      match n with
      | O => None
      | S n' => write_target n' fs t
      end
  | Some (Dir _) => None
  | _ => Some p
  end.

(** [open(p, "w").write(data)]: an existing file keeps its mode. *)
Definition write_file (w : World) (p : path) (data : list N) (fs : FS) : option FS :=
  match write_target MAXSYMLINKS fs p with
  | None => None
  | Some q =>
      match fs !! q with
      | Some (File perm _) => Some (<[q := File perm data]> fs)
      | _ => Some (<[q := File (creat_perm w (oct 666)) data]> fs)
      end
  end.

Definition read_file (fs : FS) (p : path) : option (list N) :=
  match resolve fs p with
  | Some (_, File _ data) => Some data
  | _ => None
  end.

(** [os.makedirs] and [Path.mkdir(parents=True, exist_ok=True)]: walking
    down from [pre], a component that is a directory is kept, one that is
    missing is created, anything else in the way is an error. *)
Fixpoint makedirs_from (w : World) (pre : path) (rest : list string) (fs : FS) : option FS :=
  match rest with
  | [] => Some fs
  | c :: rest' =>
      let q := child pre c in
      if is_dir fs q then makedirs_from w q rest' fs
      else if lexists fs q then None
      else makedirs_from w q rest' (<[q := Dir (creat_perm w (oct 777))]> fs)
  end.

Definition makedirs (w : World) (d : path) (fs : FS) : option FS :=
  makedirs_from w [] d fs.

(** One member of [ZipFile.extractall(d)]: the directories above the target
    are created, a directory member is created unless it is there, a file
    member is written (over a file that is there). *)
Definition extract_member (w : World) (d : path) (m : path * member) (fs : FS) : option FS :=
  let target := d ++ m.1 in
  match makedirs w (removelast target) fs with
  | None => None
  | Some fs1 =>
      match m.2 with
      | MDir =>
          if is_dir fs1 target then Some fs1
          else if lexists fs1 target then None
          else Some (<[target := Dir (creat_perm w (oct 777))]> fs1)
      | MFile data => write_file w target data fs1
      end
  end.

Fixpoint extract_members (w : World) (d : path) (ms : tree) (fs : FS) : option FS :=
  match ms with
  | [] => Some fs
  | m :: ms' =>
      match extract_member w d m fs with
      | None => None
      | Some fs1 => extract_members w d ms' fs1
      end
  end.

(** The operations, in the monad.  Each logs itself before it acts. *)

Definition lift_fs (e : exn) (f : FS -> option FS) : M unit :=
  let* fs := get_files in
  match f fs with
  | Some fs' => set_files fs'
  | None => raise e
  end.

Definition os_geteuid (w : World) : M Z :=
  emit Egeteuid >> ret (w_geteuid w).

Definition run_process (r : process_result) : M unit :=
  match r with
  | ExitZero => ret tt
  | ExitNonZero => raise CalledProcessError
  | NotStarted => raise OSError
  end.

Definition apt_get_install (w : World) : M unit :=
  emit Eapt_get >> run_process (w_apt_get w).

Definition urlretrieve (w : World) (url : string) (dest : path) : M unit :=
  emit (Eurlretrieve url dest) >>
  match w_http w url with
  | None => raise OSError
  | Some body => lift_fs OSError (write_file w dest body)
  end.

Definition Path_mkdir (w : World) (d : path) : M unit :=
  emit (Emkdir d) >> lift_fs OSError (makedirs w d).

Definition extractall (w : World) (zip d : path) : M unit :=
  emit (Eextractall zip d) >>
  let* fs := get_files in
  match read_file fs zip with
  | None => raise OSError
  | Some bytes =>
      match w_zip w bytes with
      | None => raise BadZipFile
      | Some ms => lift_fs OSError (extract_members w d ms)
      end
  end.

Definition os_remove (p : path) : M unit :=
  emit (Eremove p) >>
  let* fs := get_files in
  match fs !! p with
  | Some (File _ _) | Some (Symlink _) => set_files (delete p fs)
  | _ => raise OSError
  end.

Definition Path_stat (p : path) : M Z :=
  let* fs := get_files in
  match st_mode fs p with
  | Some m => ret m
  | None => raise OSError
  end.

Definition set_perm (nd : node) (perm : Z) : node :=
  match nd with
  | File _ data => File perm data
  | Dir _ => Dir perm
  | Symlink t => Symlink t
  end.

(** [Path.chmod(mode)] follows links; the kernel keeps the twelve
    permission bits of [mode]. *)
Definition Path_chmod (w : World) (p : path) (mode : Z) : M unit :=
  emit (Echmod p mode) >>
  let* fs := get_files in
  match resolve fs p with
  | Some (q, nd) =>
      if w_chmod_refused w q then raise OSError
      else set_files (<[q := set_perm nd (Z.land mode S_IMODE)]> fs)
  | None => raise OSError
  end.

(** [os.symlink(src, link)]: refused when anything, also a dangling link,
    is at [link]. *)
Definition os_symlink (w : World) (src link : path) : M unit :=
  emit (Esymlink src link) >>
  let* fs := get_files in
  if lexists fs link || w_symlink_refused w link then raise OSError
  else set_files (<[link := Symlink src]> fs).

(** [subprocess.run(["git", "clone", url, d], check=True)]: an exit status
    of zero leaves the repository's files in [d]; a failed clone leaves
    nothing behind. *)
Definition git_clone (w : World) (d : path) : M unit :=
  emit (Egit_clone d) >>
  match w_git_clone w with
  | ExitZero =>
      lift_fs CalledProcessError
        (fun fs => if lexists fs d then None
                   else match makedirs w d fs with
                        | Some fs1 => extract_members w d (w_repository w) fs1
                        | None => None
                        end)
  | r => run_process r
  end.

(** [os.environ["PATH"] = f"{d}:{os.environ['PATH']}"]. *)
Definition prepend_PATH (d : path) : M unit :=
  fun st =>
    match environ_PATH st with
    | None => (Raised KeyError, st)
    | Some old =>
        let value := path_str d +:+ ":" +:+ old in
        (Value tt, mkState (files st) (Some value) (trace st ++ [Eputenv_PATH value]))
    end.

Definition open_w (w : World) (p : path) (data : list N) : M unit :=
  emit (Eopen_w p) >> lift_fs OSError (write_file w p data).

Definition app_run (host : string) (port : Z) : M unit :=
  emit (Eapp_run host port).

(** ** The version-pin substitution *)

Definition text (s : string) : list N :=
  map N_of_ascii (list_ascii_of_string s).

Definition LF : N := 10%N.
Definition CR : N := 13%N.
Definition DOT : N := 46%N.

(** Text mode reading: [\r\n] and [\r] arrive as [\n]. *)
Fixpoint universal_newlines (s : list N) : list N :=
  match s with
  | [] => []
  | 13%N :: (10%N :: s'') => LF :: universal_newlines s''
  | 13%N :: s' => LF :: universal_newlines s'
  | c :: s' => c :: universal_newlines s'
  end.

(** [\d] of a [str] pattern: 0-9, and beyond ASCII the decimal digits of
    Unicode. *)
Definition is_digit (w : World) (c : N) : bool :=
  ((48 <=? c)%N && (c <=? 57)%N) || ((128 <=? c)%N && w_decimal w c).

(** [\d*], greedy: the longest run of digits and what follows it. *)
Fixpoint span_digits (w : World) (s : list N) : list N * list N :=
  match s with
  | c :: s' =>
      if is_digit w c
      then let (ds, r) := span_digits w s' in (c :: ds, r)
      else ([], s)
  | [] => ([], [])
  end.

(** [\d+]. *)
Definition digits1 (w : World) (s : list N) : option (list N * list N) :=
  match span_digits w s with
  | ([], _) => None
  | (ds, r) => Some (ds, r)
  end.

(** A literal at the head of [s]. *)
Fixpoint literal (lit s : list N) : option (list N) :=
  match lit, s with
  | [], _ => Some s
  | a :: lit', b :: s' => if (a =? b)%N then literal lit' s' else None
  | _ :: _, [] => None
  end.

(** [go (\d+\.\d+)\.\d+] at the head of [s]: group 1 and the text after the
    match.  A digit is never a dot, so each greedy [\d+] takes the whole
    run and the matcher never backtracks into a shorter one. *)
Definition match_go (w : World) (s : list N) : option (list N * list N) :=
  match literal (text "go ") s with
  | None => None
  | Some s1 =>
      match digits1 w s1 with
      | None => None
      | Some (major, s2) =>
          match literal [DOT] s2 with
          | None => None
          | Some s3 =>
              match digits1 w s3 with
              | None => None
              | Some (minor, s4) =>
                  match literal [DOT] s4 with
                  | None => None
                  | Some s5 =>
                      match digits1 w s5 with
                      | None => None
                      | Some (_, s6) => Some (major ++ DOT :: minor, s6)
                      end
                  end
              end
          end
      end
  end.

(** [content.split("\n")] and ["\n".join(lines)]. *)
Fixpoint split_lines (s : list N) : list (list N) :=
  match s with
  | [] => [[]]
  | c :: s' =>
      if (c =? LF)%N then [] :: split_lines s'
      else match split_lines s' with
           | l :: ls => (c :: l) :: ls
           | [] => [[c]]
           end
  end.

Fixpoint join_lines (ls : list (list N)) : list N :=
  match ls with
  | [] => []
  | [l] => l
  | l :: ls' => l ++ LF :: join_lines ls'
  end.

(** The replacement [go \1] for a match at the start of the line. *)
Definition fix_line (w : World) (l : list N) : list N :=
  match match_go w l with
  | Some (group1, rest) => text "go " ++ group1 ++ rest
  | None => l
  end.

(** [re.sub(r'^go (\d+\.\d+)\.\d+', r'go \1', content, flags=re.MULTILINE)]:
    with [re.MULTILINE], [^] matches at the start of the text and after each
    newline, and a match holds no newline: every line is rewritten on its
    own, at its start. *)
Definition re_sub_go (w : World) (content : list N) : list N :=
  join_lines (map (fix_line w) (split_lines content)).

(** ** [firstsetup] *)

(** Lines 33-39 and 152-158: download the ZIP, create the directory, extract
    into it, delete the ZIP. *)
Definition provision_archive (w : World) (url : string) (zip_path d : path) : M unit :=
  urlretrieve w url zip_path >>
  Path_mkdir w d >>
  extractall w zip_path d >>
  os_remove zip_path.

(** Lines 60-69: make every regular file of the bin directory executable. *)
Definition chmod_one (w : World) (exe_file : path) : M unit :=
  let* fs := get_files in
  if is_file fs exe_file then
    try_except
      (let* current_mode := Path_stat exe_file in
       let new_mode := Z.lor current_mode (oct 755) in
       Path_chmod w exe_file new_mode >>
       print (ChmodSet (name exe_file)))
      Exception
      (print (ChmodFailed (name exe_file)))
  else ret tt.

Definition chmod_all (w : World) (all_files : list path) : M unit :=
  for_each all_files (chmod_one w).

(** Lines 82-98: one link per executable file, each under its own [try]. *)
Definition link_one (w : World) (exe_file : path) (success_count error_count : Z)
  : M (Z * Z) :=
  try_except
    (let link_path := child usr_local_bin (name exe_file) in
     let* fs := get_files in
     if exists_ fs link_path then
       print (AlreadyExists (name exe_file)) >>
       ret (success_count, error_count)
     else
       os_symlink w exe_file link_path >>
       print (SymlinkCreated (name exe_file)) >>
       ret (success_count + 1, error_count))
    Exception
    (print (SymlinkFailed (name exe_file)) >>
     ret (success_count, error_count + 1)).

Fixpoint link_all (w : World) (executable_files : list path)
    (success_count error_count : Z) : M (Z * Z) :=
  match executable_files with
  | [] => ret (success_count, error_count)
  | exe_file :: rest =>
      let* counts := link_one w exe_file success_count error_count in
      link_all w rest counts.1 counts.2
  end.

(** Lines 102-112: list what is in /usr/local/bin; nothing is changed. *)
Definition verify_links (executable_files : list path) : M unit :=
  let* fs := get_files in
  if exists_ fs usr_local_bin then
    let bento4_links :=
      filter (fun f => is_symlink fs f = true) (glob fs usr_local_bin "") in
    print (FoundSymlinks (length bento4_links)) >>
    for_each bento4_links (fun link =>
      if existsb (fun exe => String.eqb (name exe) (name link)) executable_files
      then match fs !! link with
           | Some (Symlink t) => print (Verified (name link) t)
           | _ => raise OSError
           end
      else ret tt)
  else print NoUsrLocalBin.

(** Lines 44-114: after the first extraction. *)
Definition first_pass (w : World) : M unit :=
  let* fs := get_files in
  match glob fs (BENTO4_DIR w) "Bento4" with
  | candidate :: _ =>
      let bin_dir := child candidate "bin" in
      if negb (exists_ fs bin_dir) then
        print (BinDirMissing bin_dir) >> return_
      else
        let all_files := glob fs bin_dir "" in
        chmod_all w all_files >>
        let* fs := get_files in
        let executable_files :=
          filter (fun f => is_file fs f && access_X_OK fs f = true) all_files in
        prepend_PATH bin_dir >>
        let* counts := link_all w executable_files 0 0 in
        print (Summary counts.1 counts.2) >>
        verify_links executable_files
  | [] => print Bento4FolderNotFound
  end.

(** Lines 126-144: the links that are missing, collected first and then
    created, all under one [try]. *)
Definition link_path_of (exe_file : path) : path :=
  child usr_local_bin (name exe_file).

Definition missing_links (fs : FS) (bin_dir : path) : list path :=
  filter (fun exe_file =>
            is_file fs exe_file && access_X_OK fs exe_file
            && negb (exists_ fs (link_path_of exe_file)) = true)
         (glob fs bin_dir "").

Definition repair_links (w : World) (bin_dir : path) : M unit :=
  try_except
    (let* fs := get_files in
     match missing_links fs bin_dir with
     | [] => print AlreadyAvailable
     | missing =>
         print CreatingMissing >>
         for_each missing (fun exe_file =>
           os_symlink w exe_file (link_path_of exe_file) >>
           print (CreatedSymlink (name exe_file)))
     end)
    Exception
    (print (CouldNotVerify bin_dir)).

(** Lines 119-144: the toolkit directory is already there. *)
Definition repair_pass (w : World) : M unit :=
  let* fs := get_files in
  match glob fs (BENTO4_DIR w) "Bento4" with
  | candidate :: _ =>
      let bin_dir := child candidate "bin" in
      prepend_PATH bin_dir >>
      repair_links w bin_dir
  | [] => ret tt
  end.

(** Step 2, lines 27-144. *)
Definition toolkit_step (w : World) : M unit :=
  let zip_path := child (PROJECT_DIR w) "bento4.zip" in
  let* fs := get_files in
  if negb (exists_ fs (BENTO4_DIR w)) then
    provision_archive w BENTO4_URL zip_path (BENTO4_DIR w) >>
    print Bento4Installed >>
    first_pass w
  else
    print Bento4Skipped >>
    repair_pass w.

(** Step 3, lines 146-174. *)
Definition wrapper_step (w : World) : M unit :=
  let wrapper_zip := child (PROJECT_DIR w) "wrapper.x86_64.zip" in
  let* fs := get_files in
  if negb (exists_ fs (WRAPPER_DIR w)) then
    provision_archive w WRAPPER_URL wrapper_zip (WRAPPER_DIR w) >>
    let wrapper_bin := child (WRAPPER_DIR w) "wrapper" in
    try_except
      (let* fs := get_files in
       if exists_ fs wrapper_bin then
         let* current_mode := Path_stat wrapper_bin in
         Path_chmod w wrapper_bin (Z.lor current_mode (oct 755)) >>
         print WrapperChmodSet
       else print WrapperBinaryMissing)
      Exception
      (print WrapperChmodFailed) >>
    print WrapperExtracted
  else print WrapperSkipped.

(** Lines 185-201: the [go.mod] of the clone. *)
Definition patch_go_mod (w : World) : M unit :=
  let go_mod_path := child (AMD_DIR w) "go.mod" in
  let* fs := get_files in
  if exists_ fs go_mod_path then
    try_except
      (let* fs := get_files in
       match read_file fs go_mod_path with
       | None => raise OSError
       | Some data =>
           let content := universal_newlines data in
           let fixed_content := re_sub_go w content in
           if bool_decide (fixed_content ≠ content) then
             open_w w go_mod_path fixed_content >>
             print GoModFixed
           else ret tt
       end)
      Exception
      (print GoModFailed)
  else ret tt.

(** Step 4, lines 176-203. *)
Definition clone_step (w : World) : M unit :=
  let* fs := get_files in
  if negb (exists_ fs (AMD_DIR w)) then
    git_clone w (AMD_DIR w) >>
    print Cloned >>
    patch_go_mod w
  else print CloneSkipped.

(** Lines 19-209: the [try] block of [firstsetup] and its handler. *)
Definition setup_steps (w : World) : M unit :=
  try_except
    (apt_get_install w >>
     print PackagesInstalled >>
     toolkit_step w >>
     wrapper_step w >>
     clone_step w >>
     print SetupComplete)
    is_CalledProcessError
    (print SetupFailed >> sys_exit 1).

(** Lines 13-209. *)
Definition firstsetup (w : World) : M unit :=
  call
    (let* uid := os_geteuid w in
     (if negb (uid =? 0) then print MustBeRoot >> sys_exit 1 else ret tt) >>
     setup_steps w).

(** ** [start] and the module body *)

(** Lines 211-224. *)
Definition start (w : World) : M unit :=
  print Starting >>
  let* fs := get_files in
  match glob fs (BENTO4_DIR w) "Bento4" with
  | candidate :: _ => prepend_PATH (child candidate "bin")
  | [] => ret tt
  end >>
  prepend_PATH (WRAPPER_DIR w) >>
  app_run "0.0.0.0" 5000.

Definition marker_text : list N :=
  text "This file marks that first setup has been completed." ++ [LF].

(** Lines 226-232: the first-run check. *)
Definition first_run_check (w : World) : M unit :=
  let* fs := get_files in
  if negb (exists_ fs (marker_file w)) then
    firstsetup w >>
    open_w w (marker_file w) marker_text
  else ret tt.

(** Lines 226-234: what running the script does. *)
Definition main (w : World) : M unit :=
  first_run_check w >>
  start w.

(** ** Vocabulary of the statements *)

(** The events a run adds are those after the ones already logged. *)
Definition events_since (st st' : State) : list event :=
  drop (length (trace st)) (trace st').

(** [extends P st st']: [st'] has the trace of [st] followed by events that
    all satisfy [P]. *)
Definition extends (P : event -> Prop) (st st' : State) : Prop :=
  exists evs, trace st' = trace st ++ evs /\ Forall P evs.

(** [emits_only P m]: whatever [m] does, it only logs events satisfying [P]. *)
Definition emits_only {A} (P : event -> Prop) (m : M A) : Prop :=
  forall st, extends P st (m st).2.

(** The bin directory of the toolkit, as [start] and [firstsetup] find it:
    below the first entry of the toolkit directory named [Bento4*]. *)
Definition discovered_bin (w : World) (fs : FS) : option path :=
  match glob fs (BENTO4_DIR w) "Bento4" with
  | candidate :: _ => Some (child candidate "bin")
  | [] => None
  end.

(** What [start] logs and the search path it leaves, from the search path
    [old] it finds. *)
Definition start_PATH_events (w : World) (fs : FS) (old : string) : list event * string :=
  let '(evs, p) :=
    match discovered_bin w fs with
    | Some bin_dir =>
        let p := path_str bin_dir +:+ ":" +:+ old in ([Eputenv_PATH p], p)
    | None => ([], old)
    end in
  let p' := path_str (WRAPPER_DIR w) +:+ ":" +:+ p in
  (evs ++ [Eputenv_PATH p'], p').


(** The same world seen by a process with another effective user id. *)
Definition with_geteuid (u : Z) (w : World) : World :=
  mkWorld (PROJECT_DIR w) u (w_apt_get w) (w_http w) (w_zip w) (w_git_clone w)
    (w_repository w) (w_chmod_refused w) (w_symlink_refused w) (w_umask w)
    (w_decimal w).

(** The events of the environment composer and the service launcher. *)
Definition launch_event (e : event) : Prop :=
  e = Eprint Starting \/ (exists v, e = Eputenv_PATH v) \/ e = Eapp_run "0.0.0.0" 5000.

(** ** A sample installation *)

Module Sample.

Definition project : path := ["opt"; "alac-rip"].

Definition bento4_zip : tree :=
  [ (["Bento4-SDK"], MDir);
    (["Bento4-SDK"; "bin"], MDir);
    (["Bento4-SDK"; "bin"; "mp4dump"], MFile [1%N]);
    (["Bento4-SDK"; "bin"; "mp4info"], MFile [2%N]) ].

Definition wrapper_zip : tree := [ (["wrapper"], MFile [3%N]) ].

Definition repository : tree :=
  [ (["go.mod"],
     MFile (text "module main" ++ LF :: text "go 1.23.1" ++ [LF])) ].

Definition http (url : string) : option (list N) :=
  if String.eqb url BENTO4_URL then Some [80%N; 75%N; 1%N]
  else if String.eqb url WRAPPER_URL then Some [80%N; 75%N; 2%N]
  else None.

Definition zip (bytes : list N) : option tree :=
  match bytes with
  | [80%N; 75%N; 1%N] => Some bento4_zip
  | [80%N; 75%N; 2%N] => Some wrapper_zip
  | _ => None
  end.

(** Root, a network that answers, a umask of 022. *)
Definition world : World :=
  mkWorld project 0 ExitZero http zip ExitZero repository
    (fun _ => false) (fun _ => false) (oct 22) (fun _ => false).

(** A machine on which the script was never run. *)
Definition disk : FS :=
  list_to_map
    [ (["opt"], Dir (oct 755)); (project, Dir (oct 755));
      (["usr"], Dir (oct 755)); (["usr"; "local"], Dir (oct 755));
      (usr_local_bin, Dir (oct 755)) ].

Definition fresh : State := mkState disk (Some "/usr/bin:/bin") [].

(** The marker is there, the dependencies are not. *)
Definition marked : State :=
  mkState (<[marker_file world := File (oct 644) marker_text]> disk)
    (Some "/usr/bin:/bin") [].

End Sample.

(** A piece of code completes when it ends with a value or with [return]. *)
Definition completes {A} (r : result A) : Prop :=
  match r with
  | Value _ | Returned => True
  | _ => False
  end.

(** [normal_only P m]: the runs of [m] that complete log only events
    satisfying [P]. *)
Definition normal_only {A} (P : event -> Prop) (m : M A) : Prop :=
  forall st, completes (m st).1 -> extends P st (m st).2.

(** A step whose failure is fatal has succeeded: the package installation,
    a download, the clone. *)
Definition fatal_step_succeeded (w : World) (e : event) : Prop :=
  match e with
  | Eapt_get => w_apt_get w = ExitZero
  | Eurlretrieve url _ => w_http w url <> None
  | Egit_clone _ => w_git_clone w = ExitZero
  | _ => True
  end.

(** [p] lies in [d] or below it. *)
Definition below (d p : path) : bool := bool_decide (take (length d) p = d).

(** The events of the permission and symlink manager: a [chmod] in the
    toolkit directory, a [symlink]. *)
Definition manager_event (w : World) (e : event) : bool :=
  match e with
  | Echmod p _ => below (BENTO4_DIR w) p
  | Esymlink _ _ => true
  | _ => false
  end.

Module NoToolkitFolder.
(** An archive for the toolkit that holds no [Bento4*] folder. *)
Definition http (url : string) : option (list N) :=
  if String.eqb url BENTO4_URL then Some [80%N; 75%N; 9%N]
  else Sample.http url.

Definition zip (bytes : list N) : option tree :=
  match bytes with
  | [80%N; 75%N; 9%N] => Some [ (["README"], MFile (text "moved")) ]
  | _ => Sample.zip bytes
  end.

Definition world : World :=
  mkWorld Sample.project 0 ExitZero http zip ExitZero Sample.repository
    (fun _ => false) (fun _ => false) (oct 22) (fun _ => false).
End NoToolkitFolder.

(** The permission bits a regular file with bits [perm] has after
    [chmod(st_mode | 0o755)]. *)
Definition repaired_perm (perm : Z) : Z :=
  Z.land (Z.lor (Z.lor S_IFREG perm) (oct 755)) S_IMODE.

(** [fs'] is [fs] with the permission bits of some regular files repaired. *)
Definition repaired (fs fs' : FS) : Prop :=
  forall q,
    fs' !! q = fs !! q \/
    exists perm data,
      fs !! q = Some (File perm data) /\
      fs' !! q = Some (File (repaired_perm perm) data).

Module ExecuteOnly.
(** A tool that comes with mode 0o711: all three execute bits are set. *)
Definition tool : path := Sample.project ++ ["bento4"; "Bento4-SDK"; "bin"; "mp4dump"].
Definition state : State :=
  mkState (<[tool := File (oct 711) [1%N]]> Sample.disk) (Some "/usr/bin:/bin") [].
End ExecuteOnly.

Module DanglingLink.
(** The toolkit unpacked by an earlier run, its tools executable, and at
    the link path of [mp4dump] a symbolic link left by an older
    installation, whose target is gone. *)
Definition bin_dir : path := Sample.project ++ ["bento4"; "Bento4-SDK"; "bin"].
Definition mp4dump : path := child bin_dir "mp4dump".
Definition mp4info : path := child bin_dir "mp4info".

Definition toolkit : list (path * node) :=
  [ (Sample.project ++ ["bento4"], Dir (oct 755));
    (Sample.project ++ ["bento4"; "Bento4-SDK"], Dir (oct 755));
    (bin_dir, Dir (oct 755));
    (mp4dump, File (oct 755) [1%N]);
    (mp4info, File (oct 755) [2%N]) ].

Definition stale : node := Symlink ["opt"; "bento4-old"; "bin"; "mp4dump"].

(** For the repair pass: the toolkit directory exists. *)
Definition disk : FS :=
  <[child usr_local_bin "mp4dump" := stale]> (list_to_map toolkit ∪ Sample.disk).

Definition state : State := mkState disk (Some "/usr/bin:/bin") [].

(** For the first pass: nothing is installed, the stale link is there. *)
Definition fresh : State :=
  mkState (<[child usr_local_bin "mp4dump" := stale]> Sample.disk)
    (Some "/usr/bin:/bin") [].
End DanglingLink.

(** [st] with more events logged. *)
Definition logged (st : State) (evs : list event) : State :=
  mkState (files st) (environ_PATH st) (trace st ++ evs).

(** The file a line of the link loop reports on: every file gets one of
    "Already exists", "Created symlink", "Failed to create symlink". *)
Definition reported (e : event) : option string :=
  match e with
  | Eprint (AlreadyExists n) | Eprint (SymlinkCreated n) | Eprint (SymlinkFailed n) =>
      Some n
  | _ => None
  end.

(** The file system with a link for each file of [l]. *)
Definition with_links (l : list path) (fs : FS) : FS :=
  foldl (fun fs f => <[link_path_of f := Symlink f]> fs) fs l.

(** What creating a link for each file of [l] logs. *)
Definition link_events (l : list path) : list event :=
  flat_map (fun f => [Esymlink f (link_path_of f); Eprint (CreatedSymlink (name f))]) l.

Module ReadOnly.
(** The toolkit is installed, no link is there, and /usr/local/bin lies
    on a file system that takes no new entry. *)
Definition world : World :=
  mkWorld Sample.project 0 ExitZero Sample.http Sample.zip ExitZero
    Sample.repository (fun _ => false) (fun _ => true) (oct 22) (fun _ => false).

Definition state : State :=
  mkState (list_to_map DanglingLink.toolkit ∪ Sample.disk)
    (Some "/usr/bin:/bin") [].
End ReadOnly.

(** The archive dependencies: where the ZIP comes from, the temporary path
    it is downloaded to, the directory it is unpacked in. *)
Definition bento4_zip_path (w : World) : path := child (PROJECT_DIR w) "bento4.zip".
Definition wrapper_zip_path (w : World) : path := child (PROJECT_DIR w) "wrapper.x86_64.zip".





(** [changes_files R m]: whatever [m] does, the file system it leaves is
    related by [R] to the one it found. *)
Definition changes_files {A : Type} (R : FS -> FS -> Prop) (m : M A) : Prop :=
  forall st, R (files st) (files (m st).2).

(** [fs'] is [fs] with directories added at paths that were free. *)
Definition adds_dirs (fs fs' : FS) : Prop :=
  forall p,
    fs' !! p = fs !! p \/
    (fs !! p = None /\ exists perm, fs' !! p = Some (Dir perm)).



Module NoBinFolder.
(** An archive for the toolkit with a [Bento4*] folder that has no [bin]. *)
Definition http (url : string) : option (list N) :=
  if String.eqb url BENTO4_URL then Some [80%N; 75%N; 7%N]
  else Sample.http url.

Definition zip (bytes : list N) : option tree :=
  match bytes with
  | [80%N; 75%N; 7%N] =>
      Some [ (["Bento4-SDK"], MDir); (["Bento4-SDK"; "docs"], MDir) ]
  | _ => Sample.zip bytes
  end.

Definition world : World :=
  mkWorld Sample.project 0 ExitZero http zip ExitZero Sample.repository
    (fun _ => false) (fun _ => false) (oct 22) (fun _ => false).
End NoBinFolder.

(** ** More worlds *)

(** The same world with another outcome of [apt-get install]. *)
Definition with_apt_get (r : process_result) (w : World) : World :=
  mkWorld (PROJECT_DIR w) (w_geteuid w) r (w_http w) (w_zip w) (w_git_clone w)
    (w_repository w) (w_chmod_refused w) (w_symlink_refused w) (w_umask w)
    (w_decimal w).

(** The same world with a network that answers nothing. *)
Definition offline (w : World) : World :=
  mkWorld (PROJECT_DIR w) (w_geteuid w) (w_apt_get w) (fun _ => None) (w_zip w)
    (w_git_clone w) (w_repository w) (w_chmod_refused w) (w_symlink_refused w)
    (w_umask w) (w_decimal w).

(** What [patch_go_mod] may log. *)
Definition patch_event (w : World) (e : event) : Prop :=
  e = Eopen_w (child (AMD_DIR w) "go.mod") \/
  e = Eprint GoModFixed \/ e = Eprint GoModFailed.

(** A sequence of digits, and a text that does not go on with a digit. *)
Definition all_digits (w : World) (ds : list N) : Prop :=
  Forall (fun c => is_digit w c = true) ds.

Definition no_digit_ahead (w : World) (s : list N) : Prop :=
  match s with
  | c :: _ => is_digit w c = false
  | [] => True
  end.

(** A line [go MAJOR.MINOR.PATCH] followed by [rest], and what it is
    rewritten to. *)
Definition pinned_line (major minor patch rest : list N) : list N :=
  text "go " ++ major ++ DOT :: minor ++ DOT :: patch ++ rest.

Definition truncated_line (major minor rest : list N) : list N :=
  text "go " ++ major ++ DOT :: minor ++ rest.

(** The outcome lines of the link loop, by kind. *)
Definition is_created (e : event) : bool :=
  match e with Eprint (SymlinkCreated _) => true | _ => false end.
Definition is_failed (e : event) : bool :=
  match e with Eprint (SymlinkFailed _) => true | _ => false end.
Definition is_already (e : event) : bool :=
  match e with Eprint (AlreadyExists _) => true | _ => false end.

Definition count (f : event -> bool) (evs : list event) : Z :=
  Z.of_nat (length (List.filter f evs)).

Module JustUnpacked.
(** A tool as the extraction leaves it: mode 0o644, no execute bit. *)
Definition tool : path := Sample.project ++ ["bento4"; "Bento4-SDK"; "bin"; "mp4dump"].
Definition state : State :=
  mkState (<[tool := File (oct 644) [1%N]]> Sample.disk) (Some "/usr/bin:/bin") [].
End JustUnpacked.

(** What [firstsetup] may do: the only downloads, directories, archives and
    removals are those of the two archive dependencies, every mode passed to
    [chmod] holds rwxr-xr-x, every link is made in /usr/local/bin under the
    name of its file, the only clone goes to the repository directory, the
    only file opened for writing is [go.mod], and the service is not
    started. *)
Definition firstsetup_footprint (w : World) (e : event) : Prop :=
  match e with
  | Egeteuid | Eapt_get | Eprint _ | Eputenv_PATH _ => True
  | Eurlretrieve url dest =>
      (url, dest) = (BENTO4_URL, bento4_zip_path w) \/
      (url, dest) = (WRAPPER_URL, wrapper_zip_path w)
  | Emkdir d => d = BENTO4_DIR w \/ d = WRAPPER_DIR w
  | Eextractall zip d =>
      (zip, d) = (bento4_zip_path w, BENTO4_DIR w) \/
      (zip, d) = (wrapper_zip_path w, WRAPPER_DIR w)
  | Eremove p => p = bento4_zip_path w \/ p = wrapper_zip_path w
  | Echmod _ mode => Z.land mode (oct 755) = oct 755
  | Esymlink src link => link = link_path_of src
  | Egit_clone d => d = AMD_DIR w
  | Eopen_w p => p = child (AMD_DIR w) "go.mod"
  | Eapp_run _ _ => False
  end.

(** The line of lines 50-52: the bin directory of the toolkit is missing. *)
Definition bin_dir_report (e : event) : bool :=
  match e with
  | Eprint (BinDirMissing _) => true
  | _ => false
  end.

(** Every run of the wrapper step downloads the wrapper or prints that it
    skips it, every run of the clone step calls git or prints that it skips
    the clone, and the [try] block of [firstsetup] ends with the line that
    the setup is complete. *)
Definition wrapper_or_clone_event (e : event) : bool :=
  match e with
  | Eurlretrieve url _ => String.eqb url WRAPPER_URL
  | Egit_clone _ => true
  | Eprint WrapperSkipped | Eprint CloneSkipped | Eprint SetupComplete => true
  | _ => false
  end.

(** A piece of code that reports a missing bin directory only to [return]
    right after, before any event of the wrapper and clone steps. *)
Definition returns_at_missing_bin {A} (m : M A) : Prop :=
  forall st,
    extends (fun e => bin_dir_report e = false) st (m st).2 \/
    ((m st).1 = Returned /\
     exists evs b,
       trace (m st).2 = trace st ++ evs ++ [Eprint (BinDirMissing b)] /\
       Forall (fun e => bin_dir_report e = false /\ wrapper_or_clone_event e = false)
         evs).

(** A download of the toolkit archive. *)
Definition toolkit_download (e : event) : bool :=
  match e with
  | Eurlretrieve url _ => String.eqb url BENTO4_URL
  | _ => false
  end.

Module CorruptArchive.
(** The sample machine behind a network that delivers no ZIP archive. *)
Definition world : World :=
  mkWorld Sample.project 0 ExitZero Sample.http (fun _ => None) ExitZero
    Sample.repository (fun _ => false) (fun _ => false) (oct 22) (fun _ => false).
End CorruptArchive.

Module ClonedRepository.
(** The sample machine right after a clone whose [go.mod] pins a patch
    release on its second line. *)
Definition go_mod : list N :=
  text "module main" ++ LF :: text "go 1.23.1" ++ LF :: text "require example.org/m v1.0.0" ++ [LF].

Definition state : State :=
  mkState (<[child (AMD_DIR Sample.world) "go.mod" := File (oct 644) go_mod]> Sample.disk)
    (Some "/usr/bin:/bin") [].
End ClonedRepository.
(** * Properties *)

(** ** The monad *)

Lemma bind_Value {A B} (m : M A) (k : A -> M B) st a st' :
  m st = (Value a, st') -> bind m k st = k a st'.
Proof. intros H. unfold bind. now rewrite H. Qed.

Lemma bind_not_Value {A B} (m : M A) (k : A -> M B) st :
  (forall a, (m st).1 <> Value a) ->
  (bind m k st).2 = (m st).2 /\ forall b, (bind m k st).1 <> Value b.
Proof.
  intros H. unfold bind. destruct (m st) as [[a|e|c|] st'] eqn:E; simpl in *.
  - now destruct (H a).
  - split; [reflexivity | discriminate].
  - split; [reflexivity | discriminate].
  - split; [reflexivity | discriminate].
Qed.



Lemma extends_refl P st : extends P st st.
Proof. exists []. split; [now rewrite app_nil_r | constructor]. Qed.

Lemma extends_trans P st1 st2 st3 :
  extends P st1 st2 -> extends P st2 st3 -> extends P st1 st3.
Proof.
  intros (e1 & H1 & F1) (e2 & H2 & F2). exists (e1 ++ e2). split.
  - now rewrite H2, H1, app_assoc.
  - now apply Forall_app.
Qed.

Lemma extends_events_since P st st' :
  extends P st st' -> Forall P (events_since st st').
Proof.
  intros (evs & H & F). unfold events_since. rewrite H.
  now rewrite drop_app_length.
Qed.

Lemma extends_weaken (P Q : event -> Prop) st st' :
  (forall e, P e -> Q e) -> extends P st st' -> extends Q st st'.
Proof.
  intros HPQ (evs & H & F). exists evs. split; [assumption|].
  eapply Forall_impl; eauto.
Qed.


Section Emits.
Context (P : event -> Prop).

Lemma emits_ret {A} (a : A) : emits_only P (ret a).
Proof. intros st. apply extends_refl. Qed.

Lemma emits_raise {A} e : emits_only P (@raise A e).
Proof. intros st. apply extends_refl. Qed.

Lemma emits_sys_exit {A} c : emits_only P (@sys_exit A c).
Proof. intros st. apply extends_refl. Qed.

Lemma emits_return {A} : emits_only P (@return_ A).
Proof. intros st. apply extends_refl. Qed.

Lemma emits_get_files : emits_only P get_files.
Proof. intros st. apply extends_refl. Qed.

Lemma emits_set_files fs : emits_only P (set_files fs).
Proof. intros st. exists []. simpl. split; [now rewrite app_nil_r | constructor]. Qed.

Lemma emits_emit e : P e -> emits_only P (emit e).
Proof. intros He st. exists [e]. simpl. split; [reflexivity | now repeat constructor]. Qed.

Lemma emits_bind {A B} (m : M A) (k : A -> M B) :
  emits_only P m -> (forall a, emits_only P (k a)) -> emits_only P (bind m k).
Proof.
  intros Hm Hk st. unfold bind. specialize (Hm st).
  destruct (m st) as [[a|e|c|] st']; simpl in *; try assumption.
  eapply extends_trans; [exact Hm | apply Hk].
Qed.

Lemma emits_try_except {A} (body handler : M A) catches :
  emits_only P body -> emits_only P handler ->
  emits_only P (try_except body catches handler).
Proof.
  intros Hb Hh st. unfold try_except. specialize (Hb st).
  destruct (body st) as [[a|e|c|] st']; simpl in *; try assumption.
  destruct (catches e); simpl; [|assumption].
  eapply extends_trans; [exact Hb | apply Hh].
Qed.

Lemma emits_call (body : M unit) : emits_only P body -> emits_only P (call body).
Proof.
  intros Hb st. unfold call. specialize (Hb st).
  destruct (body st) as [[a|e|c|] st']; simpl in *; assumption.
Qed.

Lemma emits_for_each {A} (xs : list A) (body : A -> M unit) :
  (forall x, emits_only P (body x)) -> emits_only P (for_each xs body).
Proof.
  intros Hb. induction xs as [|x xs IH]; simpl.
  - apply emits_ret.
  - apply emits_bind; [apply Hb | intros _; exact IH].
Qed.

Lemma emits_lift_fs e f : emits_only P (lift_fs e f).
Proof.
  unfold lift_fs. apply emits_bind; [apply emits_get_files|].
  intros fs. destruct (f fs); [apply emits_set_files | apply emits_raise].
Qed.

Lemma emits_run_process r : emits_only P (run_process r).
Proof. destruct r; [apply emits_ret | apply emits_raise | apply emits_raise]. Qed.

Lemma emits_Path_stat p : emits_only P (Path_stat p).
Proof.
  unfold Path_stat. apply emits_bind; [apply emits_get_files|].
  intros fs. destruct (st_mode fs p); [apply emits_ret | apply emits_raise].
Qed.
End Emits.

Lemma emits_prepend_PATH (P : event -> Prop) d :
  (forall v, P (Eputenv_PATH v)) -> emits_only P (prepend_PATH d).
Proof.
  intros HP st. unfold prepend_PATH. destruct (environ_PATH st); simpl.
  - eexists. split; [reflexivity | repeat constructor; apply HP].
  - apply extends_refl.
Qed.

(** One step of a proof that a piece of the script logs only events of a
    given kind: follow the structure of the code. *)
Ltac emits_step :=
  lazymatch goal with
  | |- emits_only _ (bind _ _) => apply emits_bind; [|intros ?]
  | |- emits_only _ (ret _) => apply emits_ret
  | |- emits_only _ (raise _) => apply emits_raise
  | |- emits_only _ (sys_exit _) => apply emits_sys_exit
  | |- emits_only _ return_ => apply emits_return
  | |- emits_only _ get_files => apply emits_get_files
  | |- emits_only _ (set_files _) => apply emits_set_files
  | |- emits_only _ (try_except _ _ _) => apply emits_try_except
  | |- emits_only _ (call _) => apply emits_call
  | |- emits_only _ (for_each _ _) => apply emits_for_each; intros ?
  | |- emits_only _ (lift_fs _ _) => apply emits_lift_fs
  | |- emits_only _ (run_process _) => apply emits_run_process
  | |- emits_only _ (Path_stat _) => apply emits_Path_stat
  | |- emits_only _ (prepend_PATH _) => apply emits_prepend_PATH; intros ?
  | |- emits_only _ (print _) => apply emits_emit
  | |- emits_only _ (emit _) => apply emits_emit
  | |- emits_only _ (if ?b then _ else _) => destruct b
  | |- emits_only _ (match ?x with _ => _ end) => destruct x
  end.

(** ** [start] *)


Lemma start_spec w st old :
  environ_PATH st = Some old ->
  start w st =
    (Value tt,
     mkState (files st) (Some (start_PATH_events w (files st) old).2)
       (trace st ++ Eprint Starting :: (start_PATH_events w (files st) old).1
                 ++ [Eapp_run "0.0.0.0" 5000])).
Proof.
  intros HP. unfold start, start_PATH_events, discovered_bin.
  unfold bind, print, emit, get_files, app_run, emit. simpl.
  destruct (glob (files st) (BENTO4_DIR w) "Bento4") as [|c cs]; simpl.
  - unfold prepend_PATH, ret. simpl. rewrite HP. simpl.
    now rewrite <- !app_assoc.
  - unfold prepend_PATH. simpl. rewrite HP. simpl.
    now rewrite <- !app_assoc.
Qed.

Lemma start_no_PATH w st :
  environ_PATH st = None ->
  start w st =
    (Raised KeyError, mkState (files st) None (trace st ++ [Eprint Starting])).
Proof.
  intros HP. unfold start.
  unfold bind, print, emit, get_files, app_run, emit. simpl.
  destruct (glob (files st) (BENTO4_DIR w) "Bento4") as [|c cs]; simpl;
    unfold prepend_PATH, ret; simpl; rewrite HP; simpl; reflexivity.
Qed.

Lemma main_marker_present w st :
  exists_ (files st) (marker_file w) = true -> main w st = start w st.
Proof.
  intros H. unfold main, first_run_check, bind, get_files. simpl.
  rewrite H. simpl. reflexivity.
Qed.

(** ** The marker is present *)

(** With the marker present the run logs only the start announcement, the
    updates of [PATH] and the launch. *)
Lemma marker_present_launch_only w st :
  exists_ (files st) (marker_file w) = true ->
  Forall launch_event (events_since st (main w st).2).
Proof.
  intros Hm. rewrite (main_marker_present w st Hm).
  destruct (environ_PATH st) as [old|] eqn:HP.
  - rewrite (start_spec w st old HP). unfold events_since. cbn [snd trace].
    rewrite drop_app_length.
    assert (Hv : forall v, launch_event (Eputenv_PATH v))
      by (intros v; right; left; now exists v).
    constructor; [now left|]. apply Forall_app. split.
    + unfold start_PATH_events.
      destruct (discovered_bin w (files st)); cbn; auto.
    + constructor; [|constructor]. right. now right.
  - rewrite (start_no_PATH w st HP). unfold events_since. cbn [snd trace].
    rewrite drop_app_length. constructor; [now left | constructor].
Qed.



(** ** What the steps of [firstsetup] log *)

Ltac emits_auto := repeat emits_step; auto.

Section StepEvents.
Context (P : event -> Prop) (w : World).
Hypothesis Hprint : forall m, P (Eprint m).
Hypothesis Hputenv : forall v, P (Eputenv_PATH v).
Hypothesis Hsymlink : forall src link, P (Esymlink src link).

Lemma emits_os_symlink src link : emits_only P (os_symlink w src link).
Proof. unfold os_symlink. emits_auto. Qed.

Lemma emits_link_one f s e : emits_only P (link_one w f s e).
Proof. unfold link_one, os_symlink, print. emits_auto. Qed.

Lemma emits_link_all fs s e : emits_only P (link_all w fs s e).
Proof.
  revert s e. induction fs as [|f fs IH]; intros s e; simpl.
  - apply emits_ret.
  - apply emits_bind; [apply emits_link_one | intros c; apply IH].
Qed.

Lemma emits_verify_links fs : emits_only P (verify_links fs).
Proof. unfold verify_links, print. emits_auto. Qed.

Lemma emits_repair_links bin_dir : emits_only P (repair_links w bin_dir).
Proof. unfold repair_links, os_symlink, print. emits_auto. Qed.

Lemma emits_repair_pass : emits_only P (repair_pass w).
Proof.
  unfold repair_pass. emits_step; [emits_auto|].
  emits_step; [emits_auto|].
  emits_step; [emits_auto | apply emits_repair_links].
Qed.

Hypothesis Hchmod : forall p m, P (Echmod p m).

Lemma emits_Path_chmod p m : emits_only P (Path_chmod w p m).
Proof. unfold Path_chmod. emits_auto. Qed.

Lemma emits_chmod_all fs : emits_only P (chmod_all w fs).
Proof. unfold chmod_all, chmod_one, Path_chmod, print. emits_auto. Qed.

Lemma emits_first_pass : emits_only P (first_pass w).
Proof.
  unfold first_pass, print. emits_step; [emits_auto|].
  emits_step; [emits_auto|]. emits_step; [emits_auto|].
  emits_step; [apply emits_chmod_all|]. emits_step; [emits_auto|].
  emits_step; [emits_auto|]. emits_step; [apply emits_link_all|].
  emits_step; [emits_auto | apply emits_verify_links].
Qed.

Hypothesis Hurlretrieve : forall u d, P (Eurlretrieve u d).
Hypothesis Hmkdir : forall d, P (Emkdir d).
Hypothesis Hextractall : forall z d, P (Eextractall z d).
Hypothesis Hremove : forall p, P (Eremove p).

Lemma emits_provision_archive url zip d :
  emits_only P (provision_archive w url zip d).
Proof.
  unfold provision_archive, urlretrieve, Path_mkdir, extractall, os_remove.
  emits_auto.
Qed.

Lemma emits_toolkit_step : emits_only P (toolkit_step w).
Proof.
  unfold toolkit_step, print. emits_step; [emits_auto|]. emits_step.
  - emits_step; [apply emits_provision_archive|].
    emits_step; [emits_auto | apply emits_first_pass].
  - emits_step; [emits_auto | apply emits_repair_pass].
Qed.

Lemma emits_wrapper_step : emits_only P (wrapper_step w).
Proof.
  unfold wrapper_step, print. emits_step; [emits_auto|]. emits_step.
  - emits_step; [apply emits_provision_archive|].
    emits_step; [|emits_auto]. emits_step; [|emits_auto].
    emits_step; [emits_auto|]. emits_step; [|emits_auto].
    emits_step; [emits_auto|]. emits_step; [apply emits_Path_chmod | emits_auto].
  - emits_auto.
Qed.

Hypothesis Hgit_clone : forall d, P (Egit_clone d).
Hypothesis Hgo_mod : P (Eopen_w (child (AMD_DIR w) "go.mod")).

Lemma emits_clone_step : emits_only P (clone_step w).
Proof.
  unfold clone_step, patch_go_mod, git_clone, open_w, print. emits_auto.
Qed.

Hypothesis Hapt_get : P Eapt_get.

Lemma emits_setup_steps : emits_only P (setup_steps w).
Proof.
  unfold setup_steps, apt_get_install, print.
  emits_step; [|emits_auto].
  emits_step; [emits_auto|]. emits_step; [emits_auto|].
  emits_step; [apply emits_toolkit_step|].
  emits_step; [apply emits_wrapper_step|].
  emits_step; [apply emits_clone_step | emits_auto].
Qed.

Lemma emits_check_root (uid : Z) :
  emits_only P
    ((if negb (uid =? 0) then print MustBeRoot >> sys_exit 1 else ret tt) >>
     setup_steps w).
Proof.
  unfold print. emits_step; [emits_auto | apply emits_setup_steps].
Qed.

Hypothesis Hgeteuid : P Egeteuid.

Lemma emits_firstsetup : emits_only P (firstsetup w).
Proof.
  unfold firstsetup, os_geteuid.
  emits_step. emits_step; [emits_auto | apply emits_check_root].
Qed.
End StepEvents.

(** ** Runs of [firstsetup] that complete *)

Section Normal.
Context (P : event -> Prop).

Lemma normal_of_emits {A} (m : M A) : emits_only P m -> normal_only P m.
Proof. intros H st _. apply H. Qed.

Lemma normal_bind {A B} (m : M A) (k : A -> M B) :
  normal_only P m -> (forall a, normal_only P (k a)) -> normal_only P (bind m k).
Proof.
  intros Hm Hk st. unfold bind. specialize (Hm st).
  destruct (m st) as [[a|e|c|] st'] eqn:E; simpl in *; intros Hc.
  - eapply extends_trans; [apply Hm; exact I | apply Hk; exact Hc].
  - destruct Hc.
  - destruct Hc.
  - apply Hm. exact I.
Qed.

Lemma normal_try_fatal {A} (body handler : M A) catches :
  normal_only P body -> (forall st, ~ completes (handler st).1) ->
  normal_only P (try_except body catches handler).
Proof.
  intros Hb Hh st. unfold try_except. specialize (Hb st).
  destruct (body st) as [[a|e|c|] st'] eqn:E; simpl in *; intros Hc;
    try (apply Hb; exact I); try destruct Hc.
  destruct (catches e); simpl in *.
  - destruct (Hh st' Hc).
  - destruct Hc.
Qed.

Lemma normal_call (body : M unit) : normal_only P body -> normal_only P (call body).
Proof.
  intros Hb st. unfold call. specialize (Hb st).
  destruct (body st) as [[a|e|c|] st'] eqn:E; simpl in *; intros Hc;
    try (apply Hb; exact I); destruct Hc.
Qed.

Lemma normal_emit_then {A} e (m : M A) :
  (forall st, completes (m st).1 -> P e) -> emits_only P m ->
  normal_only P (emit e >> m).
Proof.
  intros He Hm st Hc. unfold bind, emit in *. simpl in *.
  eapply extends_trans; [|apply Hm].
  exists [e]. simpl. split; [reflexivity|].
  constructor; [|constructor]. eapply He. exact Hc.
Qed.
End Normal.

Section FatalSteps.
Context (w : World).
Let P := fatal_step_succeeded w.

Lemma normal_apt_get_install : normal_only P (apt_get_install w).
Proof.
  unfold apt_get_install. apply normal_emit_then.
  - intros st. unfold P. simpl. destruct (w_apt_get w); simpl; tauto.
  - apply emits_run_process.
Qed.

Lemma normal_urlretrieve url dest : normal_only P (urlretrieve w url dest).
Proof.
  unfold urlretrieve. apply normal_emit_then.
  - intros st. unfold P. simpl. destruct (w_http w url); simpl; [discriminate | tauto].
  - destruct (w_http w url); [apply emits_lift_fs | apply emits_raise].
Qed.

Lemma normal_git_clone d : normal_only P (git_clone w d).
Proof.
  unfold git_clone. apply normal_emit_then.
  - intros st. unfold P. simpl. destruct (w_git_clone w); simpl; tauto.
  - destruct (w_git_clone w);
      [apply emits_lift_fs | apply emits_run_process | apply emits_run_process].
Qed.

Lemma normal_provision_archive url zip d :
  normal_only P (provision_archive w url zip d).
Proof.
  unfold provision_archive.
  apply normal_bind; [apply normal_urlretrieve | intros _].
  apply normal_of_emits.
  unfold Path_mkdir, extractall, os_remove. emits_auto; exact I.
Qed.

Lemma normal_toolkit_step : normal_only P (toolkit_step w).
Proof.
  unfold toolkit_step.
  apply normal_bind; [apply normal_of_emits, emits_get_files | intros fs].
  destruct (negb (exists_ fs (BENTO4_DIR w))).
  - apply normal_bind; [apply normal_provision_archive | intros _].
    apply normal_of_emits. apply emits_bind; [apply emits_emit; exact I | intros _].
    apply emits_first_pass; intros; exact I.
  - apply normal_of_emits. apply emits_bind; [apply emits_emit; exact I | intros _].
    apply emits_repair_pass; intros; exact I.
Qed.

Lemma normal_wrapper_step : normal_only P (wrapper_step w).
Proof.
  unfold wrapper_step.
  apply normal_bind; [apply normal_of_emits, emits_get_files | intros fs].
  destruct (negb (exists_ fs (WRAPPER_DIR w))).
  - apply normal_bind; [apply normal_provision_archive | intros _].
    apply normal_of_emits. unfold print.
    emits_step; [|emits_auto; exact I]. emits_step; [|emits_auto; exact I].
    emits_step; [emits_auto|]. emits_step; [|emits_auto; exact I].
    emits_step; [emits_auto|].
    emits_step; [apply emits_Path_chmod; intros; exact I | emits_auto; exact I].
  - apply normal_of_emits. apply emits_emit. exact I.
Qed.

Lemma normal_clone_step : normal_only P (clone_step w).
Proof.
  unfold clone_step.
  apply normal_bind; [apply normal_of_emits, emits_get_files | intros fs].
  destruct (negb (exists_ fs (AMD_DIR w))).
  - apply normal_bind; [apply normal_git_clone | intros _].
    apply normal_of_emits. unfold patch_go_mod, open_w, print.
    emits_auto; exact I.
  - apply normal_of_emits. apply emits_emit. exact I.
Qed.

Lemma normal_firstsetup : normal_only P (firstsetup w).
Proof.
  unfold firstsetup. apply normal_call.
  apply normal_bind;
    [apply normal_of_emits; unfold os_geteuid; emits_auto; exact I | intros uid].
  apply normal_bind;
    [apply normal_of_emits; unfold print; emits_auto; exact I | intros _].
  unfold setup_steps. apply normal_try_fatal.
  - apply normal_bind; [apply normal_apt_get_install | intros _].
    apply normal_bind; [apply normal_of_emits, emits_emit; exact I | intros _].
    apply normal_bind; [apply normal_toolkit_step | intros _].
    apply normal_bind; [apply normal_wrapper_step | intros _].
    apply normal_bind; [apply normal_clone_step | intros _].
    apply normal_of_emits, emits_emit. exact I.
  - intros st. unfold bind, print, emit, sys_exit. simpl. tauto.
Qed.

(** Only root gets through [firstsetup]. *)
Lemma firstsetup_completes_root st :
  completes (firstsetup w st).1 -> w_geteuid w = 0.
Proof.
  unfold firstsetup, call, bind, os_geteuid, emit, ret, print, emit, sys_exit.
  simpl. destruct (w_geteuid w =? 0) eqn:E; simpl.
  - intros _. now apply Z.eqb_eq.
  - intros [].
Qed.
End FatalSteps.

(** ** The marker is absent *)

Lemma main_marker_absent w st :
  exists_ (files st) (marker_file w) = false ->
  main w st =
    ((firstsetup w >> open_w w (marker_file w) marker_text) >> start w) st.
Proof.
  intros H. unfold main, first_run_check, bind, get_files. simpl.
  rewrite H. simpl. reflexivity.
Qed.

Lemma go_mod_not_marker w : child (AMD_DIR w) "go.mod" <> marker_file w.
Proof.
  unfold AMD_DIR, marker_file, child. intros E.
  apply (f_equal (@length string)) in E. rewrite !length_app in E. simpl in E. lia.
Qed.

Lemma firstsetup_leaves_marker w :
  emits_only (fun e => e <> Eopen_w (marker_file w)) (firstsetup w).
Proof.
  apply emits_firstsetup; try (intros; discriminate).
  intros E. injection E. apply go_mod_not_marker.
Qed.

Lemma emits_start (P : event -> Prop) w :
  (forall m, P (Eprint m)) -> (forall v, P (Eputenv_PATH v)) ->
  (forall h p, P (Eapp_run h p)) -> emits_only P (start w).
Proof. intros H1 H2 H3. unfold start, app_run, print. emits_auto. Qed.

Lemma emits_open_w (P : event -> Prop) w p data :
  P (Eopen_w p) -> emits_only P (open_w w p data).
Proof. intros H. unfold open_w. emits_auto. Qed.

(** The run ends in the state [firstsetup] leaves when it does not return. *)
Lemma main_firstsetup_fails w st :
  exists_ (files st) (marker_file w) = false ->
  (forall a, (firstsetup w st).1 <> Value a) ->
  (main w st).2 = (firstsetup w st).2 /\ forall a, (main w st).1 <> Value a.
Proof.
  intros Hm Hf. rewrite (main_marker_absent w st Hm).
  destruct (bind_not_Value (firstsetup w)
              (fun _ => open_w w (marker_file w) marker_text) st Hf) as [E1 N1].
  destruct (bind_not_Value (firstsetup w >> open_w w (marker_file w) marker_text)
              (fun _ => start w) st N1) as [E2 N2].
  split; [now rewrite E2, E1 | exact N2].
Qed.

(** C1 (amended): the marker is written only after [firstsetup] has
    returned.  If a run writes the marker, then the marker was absent at the
    start, [firstsetup] returned, the effective user was root, and every
    step whose failure is fatal and that was attempted (the package
    installation, a download, the clone) succeeded. *)
Theorem marker_written_only_after_firstsetup w st :
  In (Eopen_w (marker_file w)) (events_since st (main w st).2) ->
  exists_ (files st) (marker_file w) = false /\
  (exists st1, firstsetup w st = (Value tt, st1)) /\
  w_geteuid w = 0 /\
  Forall (fatal_step_succeeded w) (events_since st (main w st).2).
Proof.
  intros Hin.
  destruct (exists_ (files st) (marker_file w)) eqn:Hm.
  { pose proof (marker_present_launch_only w st Hm) as HF.
    rewrite Forall_forall in HF. apply list_elem_of_In in Hin.
    destruct (HF _ Hin) as [E|[[v E]|E]]; discriminate. }
  split; [reflexivity|].
  destruct (firstsetup w st) as [r st1] eqn:E.
  assert (Hv : exists a, r = Value a).
  { destruct r as [a|e|c|]; [now exists a| | |]; exfalso.
    all: destruct (main_firstsetup_fails w st Hm) as [E2 _];
      [rewrite E; simpl; discriminate|].
    all: rewrite E2 in Hin.
    all: pose proof (extends_events_since _ _ _ (firstsetup_leaves_marker w st)) as HF.
    all: rewrite Forall_forall in HF; apply list_elem_of_In in Hin.
    all: exact (HF _ Hin eq_refl). }
  destruct Hv as [[] ->].
  split; [now exists st1|].
  split; [apply (firstsetup_completes_root w st); now rewrite E|].
  apply extends_events_since.
  rewrite (main_marker_absent w st Hm).
  unfold bind at 1. unfold bind at 1. rewrite E.
  pose proof (normal_firstsetup w st) as H1. rewrite E in H1.
  specialize (H1 I). simpl in H1.
  eapply extends_trans; [exact H1|].
  pose proof (emits_open_w (fatal_step_succeeded w) w (marker_file w) marker_text I st1) as H2.
  destruct (open_w w (marker_file w) marker_text st1) as [[[]|e|c|] st2]; simpl in *;
    try exact H2.
  eapply extends_trans; [exact H2|].
  apply emits_start; intros; exact I.
Qed.

(** The first run on the sample machine writes the marker. *)
Lemma marker_written_only_after_firstsetup_witness :
  In (Eopen_w (marker_file Sample.world))
     (events_since Sample.fresh (main Sample.world Sample.fresh).2) /\
  w_geteuid Sample.world = 0 /\
  Forall (fatal_step_succeeded Sample.world)
    (events_since Sample.fresh (main Sample.world Sample.fresh).2).
Proof.
  assert (Hin : In (Eopen_w (marker_file Sample.world))
                  (events_since Sample.fresh (main Sample.world Sample.fresh).2)).
  { vm_compute. repeat (first [left; reflexivity | right]). }
  destruct (marker_written_only_after_firstsetup Sample.world Sample.fresh Hin)
    as (_ & _ & Hr & HF).
  split; [exact Hin|]. split; [exact Hr | exact HF].
Defined.

(** C1, as stated, fails: the archive of the toolkit holds no [Bento4*]
    folder, so the permission and symlink step is skipped (a warning, no
    [chmod], no [symlink]), and the marker is written all the same. *)
Lemma marker_written_though_link_step_skipped :
  exists_ (files Sample.fresh) (marker_file NoToolkitFolder.world) = false /\
  In (Eprint Bento4FolderNotFound)
     (events_since Sample.fresh (main NoToolkitFolder.world Sample.fresh).2) /\
  existsb (manager_event NoToolkitFolder.world)
     (events_since Sample.fresh (main NoToolkitFolder.world Sample.fresh).2) = false /\
  In (Eopen_w (marker_file NoToolkitFolder.world))
     (events_since Sample.fresh (main NoToolkitFolder.world Sample.fresh).2) /\
  is_file (files (main NoToolkitFolder.world Sample.fresh).2)
     (marker_file NoToolkitFolder.world) = true.
Proof.
  split; [vm_compute; reflexivity|].
  split; [vm_compute; repeat (first [left; reflexivity | right])|].
  split; [vm_compute; reflexivity|].
  split; [vm_compute; repeat (first [left; reflexivity | right])|].
  vm_compute; reflexivity.
Qed.

(** ** Following links *)

Lemma resolve_file fs p perm data :
  fs !! p = Some (File perm data) -> resolve fs p = Some (p, File perm data).
Proof. intros H. unfold resolve, MAXSYMLINKS. cbn [resolve_fuel]. now rewrite H. Qed.

Lemma resolve_dir fs p perm :
  fs !! p = Some (Dir perm) -> resolve fs p = Some (p, Dir perm).
Proof. intros H. unfold resolve, MAXSYMLINKS. cbn [resolve_fuel]. now rewrite H. Qed.

Lemma resolve_none fs p : fs !! p = None -> resolve fs p = None.
Proof. intros H. unfold resolve, MAXSYMLINKS. cbn [resolve_fuel]. now rewrite H. Qed.

Lemma write_target_file fs p perm data :
  fs !! p = Some (File perm data) -> write_target MAXSYMLINKS fs p = Some p.
Proof. intros H. unfold MAXSYMLINKS. cbn [write_target]. now rewrite H. Qed.

Lemma write_target_none fs p :
  fs !! p = None -> write_target MAXSYMLINKS fs p = Some p.
Proof. intros H. unfold MAXSYMLINKS. cbn [write_target]. now rewrite H. Qed.

(** ** Writing a file and reading it back *)

Lemma write_target_free n fs p q :
  write_target n fs p = Some q ->
  match fs !! q with
  | None | Some (File _ _) => True
  | _ => False
  end.
Proof.
  revert p. induction n as [|n IH]; intros p; simpl.
  - destruct (fs !! p) as [[perm data|perm|t]|] eqn:E; intros H;
      try discriminate; injection H as <-; now rewrite E.
  - destruct (fs !! p) as [[perm data|perm|t]|] eqn:E; intros H;
      try discriminate; try (injection H as <-; now rewrite E).
    now apply (IH t).
Qed.

Lemma resolve_after_write n fs p q perm data :
  write_target n fs p = Some q ->
  resolve_fuel n (<[q := File perm data]> fs) p = Some (q, File perm data).
Proof.
  revert p. induction n as [|n IH]; intros p H.
  - pose proof (write_target_free _ _ _ _ H) as Hq. simpl in *.
    destruct (fs !! p) as [[perm' data'|perm'|t]|] eqn:E;
      try discriminate; injection H as <-; now rewrite lookup_insert_eq.
  - pose proof (write_target_free _ _ _ _ H) as Hq. simpl in *.
    destruct (fs !! p) as [[perm' data'|perm'|t]|] eqn:E;
      try discriminate; try (injection H as <-; now rewrite lookup_insert_eq).
    assert (Hne : q <> p) by (intros ->; now rewrite E in Hq).
    rewrite lookup_insert_ne by exact Hne. rewrite E. now apply IH.
Qed.

Lemma read_after_write w p data fs fs' :
  write_file w p data fs = Some fs' -> read_file fs' p = Some data.
Proof.
  unfold write_file, read_file, resolve.
  destruct (write_target MAXSYMLINKS fs p) as [q|] eqn:E; [|discriminate].
  destruct (fs !! q) as [[perm d|perm|t]|]; intros H; injection H as <-;
    now rewrite (resolve_after_write _ _ _ _ _ _ E).
Qed.

(** ** Gating by the marker *)

Lemma firstsetup_begins w st :
  exists evs, trace (firstsetup w st).2 = trace st ++ Egeteuid :: evs.
Proof.
  unfold firstsetup, os_geteuid.
  set (k := fun uid : Z =>
    (if negb (uid =? 0) then print MustBeRoot >> sys_exit 1 else ret tt) >>
    setup_steps w).
  set (st0 := mkState (files st) (environ_PATH st) (trace st ++ [Egeteuid])).
  assert (E : call (bind (emit Egeteuid >> ret (w_geteuid w)) k) st
              = call (k (w_geteuid w)) st0) by reflexivity.
  rewrite E.
  assert (H : emits_only (fun _ => True) (call (k (w_geteuid w)))).
  { apply emits_call. unfold k. apply emits_check_root; intros; exact I. }
  destruct (H st0) as (evs & Ht & _). exists evs.
  rewrite Ht. simpl. now rewrite <- app_assoc.
Qed.

Lemma bind_extends {A B} (P : event -> Prop) (m : M A) (k : A -> M B) st :
  (forall a, emits_only P (k a)) -> extends P (m st).2 (bind m k st).2.
Proof.
  intros Hk. unfold bind.
  destruct (m st) as [[a|e|c|] st']; simpl; try apply extends_refl. apply Hk.
Qed.

Lemma main_extends_firstsetup w st :
  exists_ (files st) (marker_file w) = false ->
  extends (fun _ => True) (firstsetup w st).2 (main w st).2.
Proof.
  intros Hm. rewrite (main_marker_absent w st Hm).
  eapply extends_trans.
  - apply (bind_extends (fun _ => True) (firstsetup w)
             (fun _ => open_w w (marker_file w) marker_text)).
    intros _. now apply emits_open_w.
  - apply bind_extends. intros _. apply emits_start; intros; exact I.
Qed.

Lemma main_after_firstsetup w st st1 :
  exists_ (files st) (marker_file w) = false ->
  firstsetup w st = (Value tt, st1) ->
  main w st = (open_w w (marker_file w) marker_text >> start w) st1.
Proof.
  intros Hm E. rewrite (main_marker_absent w st Hm).
  unfold bind at 1. unfold bind at 1. rewrite E. reflexivity.
Qed.

Lemma start_keeps_files w st : files (start w st).2 = files st.
Proof.
  destruct (environ_PATH st) as [old|] eqn:HP.
  - now rewrite (start_spec w st old HP).
  - now rewrite (start_no_PATH w st HP).
Qed.

Lemma open_marker_then_start w st1 :
  (open_w w (marker_file w) marker_text >> start w) st1 =
    match write_file w (marker_file w) marker_text (files st1) with
    | Some fs2 =>
        start w (mkState fs2 (environ_PATH st1)
                   (trace st1 ++ [Eopen_w (marker_file w)]))
    | None =>
        (Raised OSError,
         mkState (files st1) (environ_PATH st1)
           (trace st1 ++ [Eopen_w (marker_file w)]))
    end.
Proof.
  unfold open_w, lift_fs, bind, emit, get_files, set_files, raise. simpl.
  destruct (write_file w (marker_file w) marker_text (files st1)); reflexivity.
Qed.

(** C2 (amended): the first-setup sequence is entered if and only if the
    marker is absent at the start.  With the marker present only the
    environment composer and the launcher run, whatever the state of the
    dependency directories.  With the marker absent [firstsetup] runs
    first, and when it returns, the marker is written next: [open] is
    called on it, and when that call succeeds the marker holds the fixed
    message. *)
Theorem firstsetup_gated_by_marker w st :
  (In Egeteuid (events_since st (main w st).2)
     <-> exists_ (files st) (marker_file w) = false) /\
  (exists_ (files st) (marker_file w) = true ->
     Forall launch_event (events_since st (main w st).2)) /\
  (exists_ (files st) (marker_file w) = false ->
     head (events_since st (main w st).2) = Some Egeteuid /\
     forall st1, firstsetup w st = (Value tt, st1) ->
       In (Eopen_w (marker_file w)) (events_since st1 (main w st).2) /\
       forall st2, open_w w (marker_file w) marker_text st1 = (Value tt, st2) ->
         read_file (files (main w st).2) (marker_file w) = Some marker_text).
Proof.
  assert (Habsent : exists_ (files st) (marker_file w) = false ->
            head (events_since st (main w st).2) = Some Egeteuid).
  { intros Hm. destruct (firstsetup_begins w st) as (evs & E).
    destruct (main_extends_firstsetup w st Hm) as (evs' & E' & _).
    unfold events_since. rewrite E', E, <- app_assoc, drop_app_length.
    reflexivity. }
  split; [|split].
  - split.
    + intros Hin. destruct (exists_ (files st) (marker_file w)) eqn:Hm; [|reflexivity].
      pose proof (marker_present_launch_only w st Hm) as HF.
      rewrite Forall_forall in HF. apply list_elem_of_In in Hin.
      destruct (HF _ Hin) as [E|[[v E]|E]]; discriminate.
    + intros Hm. specialize (Habsent Hm).
      destruct (events_since st (main w st).2) as [|e evs]; [discriminate|].
      injection Habsent as ->. now left.
  - apply marker_present_launch_only.
  - intros Hm. split; [now apply Habsent|]. intros st1 E.
    rewrite (main_after_firstsetup w st st1 Hm E), open_marker_then_start.
    destruct (write_file w (marker_file w) marker_text (files st1)) as [fs2|] eqn:W.
    + set (st2 := mkState fs2 (environ_PATH st1)
                    (trace st1 ++ [Eopen_w (marker_file w)])).
      split.
      * destruct (emits_start (fun _ => True) w (fun _ => I) (fun _ => I)
                    (fun _ _ => I) st2) as (evs & Ht & _).
        unfold events_since. rewrite Ht. simpl.
        rewrite <- app_assoc, drop_app_length. now left.
      * intros _ _. rewrite start_keeps_files. simpl.
        now apply (read_after_write w _ _ _ _ W).
    + simpl. split.
      * unfold events_since. simpl. rewrite drop_app_length. now left.
      * intros st2 E2. unfold open_w, lift_fs, bind, emit, get_files in E2.
        simpl in E2. rewrite W in E2. discriminate.
Qed.

(** C2, as stated, fails: the marker is absent and the user is not root;
    [firstsetup] exits with status 1 after the privilege check and the
    marker is not written. *)
Lemma marker_absent_not_root_marker_not_written :
  exists_ (files Sample.fresh) (marker_file (with_geteuid 1000 Sample.world)) = false /\
  main (with_geteuid 1000 Sample.world) Sample.fresh
    = (Exited 1,
       mkState Sample.disk (Some "/usr/bin:/bin") [Egeteuid; Eprint MustBeRoot]) /\
  exists_ (files (main (with_geteuid 1000 Sample.world) Sample.fresh).2)
    (marker_file (with_geteuid 1000 Sample.world)) = false.
Proof. repeat split; vm_compute; reflexivity. Qed.

(** The sample machine, fresh and marked. *)
Lemma firstsetup_gated_by_marker_witness :
  head (events_since Sample.fresh (main Sample.world Sample.fresh).2) = Some Egeteuid /\
  read_file (files (main Sample.world Sample.fresh).2) (marker_file Sample.world)
    = Some marker_text /\
  Forall launch_event (events_since Sample.marked (main Sample.world Sample.marked).2).
Proof.
  destruct (firstsetup_gated_by_marker Sample.world Sample.fresh) as (_ & _ & Ha).
  destruct (firstsetup_gated_by_marker Sample.world Sample.marked) as (_ & Hp & _).
  assert (Hm : exists_ (files Sample.fresh) (marker_file Sample.world) = false)
    by (vm_compute; reflexivity).
  destruct (Ha Hm) as [Hh Hw].
  split; [exact Hh|]. split.
  - destruct (Hw (firstsetup Sample.world Sample.fresh).2) as [_ Hr];
      [vm_compute; reflexivity|].
    apply (Hr (open_w Sample.world (marker_file Sample.world) marker_text
                 (firstsetup Sample.world Sample.fresh).2).2).
    vm_compute; reflexivity.
  - apply Hp. vm_compute; reflexivity.
Defined.

(** ** The search path and the launch *)

Lemma first_run_check_marker_present w st :
  exists_ (files st) (marker_file w) = true ->
  first_run_check w st = (Value tt, st).
Proof.
  intros H. unfold first_run_check, bind, get_files. simpl. now rewrite H.
Qed.

(** C9 (amended): on every process start on which the first-run check
    completes (the marker is there, or [firstsetup] returns and the marker
    is written) and [PATH] is set, whatever the state of the marker: [PATH]
    is rewritten by prepending the bin directory of the toolkit, when one is
    found, and then the wrapper directory, and after that the service is
    started on 0.0.0.0:5000.  [st1] is the state the first-run check
    leaves. *)
Theorem search_path_composed_then_launch w st st1 old :
  first_run_check w st = (Value tt, st1) ->
  environ_PATH st1 = Some old ->
  (main w st).1 = Value tt /\
  files (main w st).2 = files st1 /\
  environ_PATH (main w st).2 =
    Some (path_str (WRAPPER_DIR w) +:+ ":" +:+
          match discovered_bin w (files st1) with
          | Some bin_dir => path_str bin_dir +:+ ":" +:+ old
          | None => old
          end) /\
  events_since st1 (main w st).2 =
    Eprint Starting ::
    match discovered_bin w (files st1) with
    | Some bin_dir => [Eputenv_PATH (path_str bin_dir +:+ ":" +:+ old)]
    | None => []
    end ++
    [Eputenv_PATH (path_str (WRAPPER_DIR w) +:+ ":" +:+
                   match discovered_bin w (files st1) with
                   | Some bin_dir => path_str bin_dir +:+ ":" +:+ old
                   | None => old
                   end);
     Eapp_run "0.0.0.0" 5000].
Proof.
  intros Hc HP. unfold main. rewrite (bind_Value _ _ _ _ _ Hc).
  rewrite (start_spec w st1 old HP). unfold start_PATH_events, events_since.
  simpl. rewrite drop_app_length.
  destruct (discovered_bin w (files st1)); simpl; repeat split; reflexivity.
Qed.

(** The search path of the sample installation, marked and fresh. *)
Lemma search_path_composed_then_launch_witness :
  (main Sample.world Sample.marked).1 = Value tt /\
  environ_PATH (main Sample.world Sample.marked).2
    = Some "/opt/alac-rip/wrapper:/usr/bin:/bin" /\
  (main Sample.world Sample.fresh).1 = Value tt /\
  environ_PATH (main Sample.world Sample.fresh).2
    = Some "/opt/alac-rip/wrapper:/opt/alac-rip/bento4/Bento4-SDK/bin:/opt/alac-rip/bento4/Bento4-SDK/bin:/usr/bin:/bin".
Proof.
  destruct (search_path_composed_then_launch Sample.world Sample.marked
              Sample.marked "/usr/bin:/bin") as (H1 & _ & H2 & _);
    [vm_compute; reflexivity | reflexivity |].
  destruct (search_path_composed_then_launch Sample.world Sample.fresh
              (first_run_check Sample.world Sample.fresh).2
              "/opt/alac-rip/bento4/Bento4-SDK/bin:/usr/bin:/bin")
    as (H3 & _ & H4 & _);
    [vm_compute; reflexivity | vm_compute; reflexivity |].
  split; [exact H1|]. split; [rewrite H2; vm_compute; reflexivity|].
  split; [exact H3|]. rewrite H4. vm_compute; reflexivity.
Defined.

(** C9, as stated, fails: the marker is absent and the user is not root;
    the process exits during first setup, [PATH] is left as it was and the
    service is never started. *)
Lemma no_launch_when_firstsetup_exits :
  (main (with_geteuid 1000 Sample.world) Sample.fresh).1 = Exited 1 /\
  environ_PATH (main (with_geteuid 1000 Sample.world) Sample.fresh).2
    = environ_PATH Sample.fresh /\
  ~ In (Eapp_run "0.0.0.0" 5000)
       (events_since Sample.fresh (main (with_geteuid 1000 Sample.world) Sample.fresh).2).
Proof.
  split; [vm_compute; reflexivity|]. split; [vm_compute; reflexivity|].
  vm_compute. intros [E|[E|[]]]; discriminate.
Qed.

(** ** The version-pin substitution *)

Lemma literal_Some lit s r : literal lit s = Some r -> s = lit ++ r.
Proof.
  revert s. induction lit as [|a lit IH]; intros [|b s]; simpl; intros H;
    try discriminate; try (now injection H as <-).
  destruct (N.eqb_spec a b) as [->|]; [|discriminate].
  now rewrite (IH _ H).
Qed.

Lemma literal_None lit s : ~ lit `prefix_of` s -> literal lit s = None.
Proof.
  intros Hn. destruct (literal lit s) as [r|] eqn:E; [|reflexivity].
  destruct Hn. exists r. now apply literal_Some.
Qed.

Lemma fix_line_no_keyword w l : ~ text "go " `prefix_of` l -> fix_line w l = l.
Proof.
  intros Hn. unfold fix_line, match_go. now rewrite (literal_None _ _ Hn).
Qed.

Lemma split_lines_cons s : exists l ls, split_lines s = l :: ls.
Proof.
  destruct s as [|c s]; simpl; [now eexists _, _|].
  destruct (c =? LF)%N; [now eexists _, _|].
  destruct (split_lines s); now eexists _, _.
Qed.

Lemma join_split_lines s : join_lines (split_lines s) = s.
Proof.
  induction s as [|c s IH]; [reflexivity|]. simpl.
  destruct (split_lines_cons s) as (l & ls & E). rewrite E in *.
  destruct (N.eqb_spec c LF) as [->|Hc].
  - simpl. simpl in IH. now rewrite IH.
  - destruct ls as [|l' ls]; simpl in *; now rewrite IH.
Qed.

Lemma re_sub_go_no_keyword w content :
  Forall (fun l => ~ text "go " `prefix_of` l) (split_lines content) ->
  re_sub_go w content = content.
Proof.
  intros HF. unfold re_sub_go.
  rewrite <- (join_split_lines content) at 2. f_equal.
  induction HF as [|l ls Hl _ IH]; simpl; [reflexivity|].
  now rewrite IH, (fix_line_no_keyword w l Hl).
Qed.

Lemma read_file_exists fs p data : read_file fs p = Some data -> exists_ fs p = true.
Proof.
  unfold read_file, exists_. destruct (resolve fs p) as [[q nd]|]; [reflexivity | discriminate].
Qed.

Lemma patch_go_mod_unchanged w st data :
  read_file (files st) (child (AMD_DIR w) "go.mod") = Some data ->
  re_sub_go w (universal_newlines data) = universal_newlines data ->
  patch_go_mod w st = (Value tt, st).
Proof.
  intros Hr Hs. unfold patch_go_mod, bind, get_files, try_except. cbn [files].
  rewrite (read_file_exists _ _ _ Hr), Hr.
  destruct (bool_decide (re_sub_go w (universal_newlines data)
                           <> universal_newlines data)) eqn:Hd.
  - apply bool_decide_eq_true in Hd. now destruct Hd.
  - reflexivity.
Qed.

Lemma patch_go_mod_absent w st :
  exists_ (files st) (child (AMD_DIR w) "go.mod") = false ->
  patch_go_mod w st = (Value tt, st).
Proof.
  intros He. unfold patch_go_mod, bind, get_files. simpl. now rewrite He.
Qed.

Lemma patch_go_mod_changed w st perm data :
  files st !! child (AMD_DIR w) "go.mod" = Some (File perm data) ->
  re_sub_go w (universal_newlines data) <> universal_newlines data ->
  patch_go_mod w st =
    (Value tt,
     mkState (<[child (AMD_DIR w) "go.mod" :=
                  File perm (re_sub_go w (universal_newlines data))]> (files st))
       (environ_PATH st)
       (trace st ++ [Eopen_w (child (AMD_DIR w) "go.mod"); Eprint GoModFixed])).
Proof.
  intros Hl Hs.
  pose proof (resolve_file _ _ _ _ Hl) as Hres.
  unfold patch_go_mod, bind, get_files, try_except. cbn [files].
  unfold exists_. rewrite Hres. cbn [negb].
  unfold read_file. rewrite Hres.
  destruct (bool_decide (re_sub_go w (universal_newlines data)
                           <> universal_newlines data)) eqn:Hd;
    [|apply bool_decide_eq_false in Hd; now destruct Hd].
  unfold open_w, lift_fs, bind, emit, get_files, write_file.
  cbn [files]. rewrite (write_target_file _ _ _ _ Hl), Hl.
  unfold set_files, print, emit. cbn. now rewrite <- app_assoc.
Qed.

Lemma split_lines_app a b :
  split_lines (a ++ LF :: b) = split_lines a ++ split_lines b.
Proof.
  induction a as [|c a IH]; [reflexivity|].
  cbn [app split_lines]. rewrite IH.
  destruct (c =? LF)%N; [reflexivity|].
  destruct (split_lines_cons a) as (l & ls & ->). reflexivity.
Qed.

Lemma join_lines_app ls1 ls2 :
  ls1 <> [] -> ls2 <> [] ->
  join_lines (ls1 ++ ls2) = join_lines ls1 ++ LF :: join_lines ls2.
Proof.
  intros H1 H2. induction ls1 as [|l ls1 IH]; [congruence|].
  destruct ls1 as [|l' ls1].
  - destruct ls2; [congruence | reflexivity].
  - change (join_lines ((l :: l' :: ls1) ++ ls2))
      with (l ++ LF :: join_lines ((l' :: ls1) ++ ls2)).
    rewrite IH by discriminate.
    change (join_lines (l :: l' :: ls1)) with (l ++ LF :: join_lines (l' :: ls1)).
    now rewrite <- app_assoc.
Qed.

(** The substitution works on each line by itself: no match holds a
    newline, and [^] matches after every newline. *)
Lemma re_sub_go_app w a b :
  re_sub_go w (a ++ LF :: b) = re_sub_go w a ++ LF :: re_sub_go w b.
Proof.
  unfold re_sub_go. rewrite split_lines_app, map_app.
  destruct (split_lines_cons a) as (la & lsa & ->).
  destruct (split_lines_cons b) as (lb & lsb & ->).
  apply join_lines_app; discriminate.
Qed.

Lemma split_lines_one l : LF ∉ l -> split_lines l = [l].
Proof.
  induction l as [|c l IH]; intros H; [reflexivity|].
  cbn [split_lines]. destruct (N.eqb_spec c LF) as [->|_].
  - destruct H. now left.
  - rewrite IH; [reflexivity|]. intros Hin. apply H. now right.
Qed.

Lemma re_sub_go_one_line w l : LF ∉ l -> re_sub_go w l = fix_line w l.
Proof. intros H. unfold re_sub_go. now rewrite (split_lines_one l H). Qed.

Lemma re_sub_go_line_in_context w before l after :
  LF ∉ l ->
  re_sub_go w (before ++ LF :: l ++ LF :: after)
    = re_sub_go w before ++ LF :: fix_line w l ++ LF :: re_sub_go w after.
Proof.
  intros H. now rewrite re_sub_go_app, re_sub_go_app, (re_sub_go_one_line w l H).
Qed.

Ltac no_newline :=
  let H := fresh "H" in
  intros H; vm_compute in H;
  repeat (apply elem_of_cons in H as [H|H]; [discriminate H|]); inversion H.

Lemma pinned_line_in_go_mod w before after :
  Forall (fun l => ~ text "go " `prefix_of` l) (split_lines before) ->
  Forall (fun l => ~ text "go " `prefix_of` l) (split_lines after) ->
  re_sub_go w (before ++ LF :: text "go 1.23.1" ++ LF :: after)
    = before ++ LF :: text "go 1.23" ++ LF :: after.
Proof.
  intros Hb Ha. rewrite re_sub_go_line_in_context by no_newline.
  now rewrite (re_sub_go_no_keyword w before Hb), (re_sub_go_no_keyword w after Ha).
Qed.

(** C6: the substitution works line by line, on every line of the text:
    the text before a newline and the text after it are rewritten
    independently, and a text without newline is rewritten as one line.  The
    line [go 1.23.1] becomes [go 1.23] and the line [go 1.23] stays as it
    is, alone and wherever they stand in a text (first, last or between
    other lines, whose rewriting does not depend on them); in a [go.mod]
    whose other lines do not start with [go ] the line [go 1.23.1] becomes
    [go 1.23] and everything else is kept byte for byte; a text none of
    whose lines starts with [go ] is left as it is.  [go.mod] is written
    only when the substituted text differs from the text read: with equal
    texts nothing is written and the state is unchanged, with different
    texts the file gets the substituted text, with its mode kept; so a
    cloned [go.mod] that holds the line [go 1.23.1] among lines that do not
    start with [go ] is written back with that line as [go 1.23]. *)
Theorem go_version_pin_substitution w :
  re_sub_go w (text "go 1.23.1") = text "go 1.23" /\
  re_sub_go w (text "go 1.23") = text "go 1.23" /\
  (forall content,
     Forall (fun l => ~ text "go " `prefix_of` l) (split_lines content) ->
     re_sub_go w content = content) /\
  (forall st data,
     read_file (files st) (child (AMD_DIR w) "go.mod") = Some data ->
     Forall (fun l => ~ text "go " `prefix_of` l)
            (split_lines (universal_newlines data)) ->
     patch_go_mod w st = (Value tt, st)) /\
  (forall st data,
     read_file (files st) (child (AMD_DIR w) "go.mod") = Some data ->
     re_sub_go w (universal_newlines data) = universal_newlines data ->
     patch_go_mod w st = (Value tt, st)) /\
  (forall st perm data,
     files st !! child (AMD_DIR w) "go.mod" = Some (File perm data) ->
     re_sub_go w (universal_newlines data) <> universal_newlines data ->
     patch_go_mod w st =
       (Value tt,
        mkState (<[child (AMD_DIR w) "go.mod" :=
                     File perm (re_sub_go w (universal_newlines data))]> (files st))
          (environ_PATH st)
          (trace st ++ [Eopen_w (child (AMD_DIR w) "go.mod"); Eprint GoModFixed]))) /\
  (forall a b,
     re_sub_go w (a ++ LF :: b) = re_sub_go w a ++ LF :: re_sub_go w b) /\
  (forall l, LF ∉ l -> re_sub_go w l = fix_line w l) /\
  (forall before after,
     re_sub_go w (before ++ LF :: text "go 1.23.1" ++ LF :: after)
       = re_sub_go w before ++ LF :: text "go 1.23" ++ LF :: re_sub_go w after) /\
  (forall after,
     re_sub_go w (text "go 1.23.1" ++ LF :: after)
       = text "go 1.23" ++ LF :: re_sub_go w after) /\
  (forall before,
     re_sub_go w (before ++ LF :: text "go 1.23.1")
       = re_sub_go w before ++ LF :: text "go 1.23") /\
  (forall before after,
     re_sub_go w (before ++ LF :: text "go 1.23" ++ LF :: after)
       = re_sub_go w before ++ LF :: text "go 1.23" ++ LF :: re_sub_go w after) /\
  (forall before after,
     Forall (fun l => ~ text "go " `prefix_of` l) (split_lines before) ->
     Forall (fun l => ~ text "go " `prefix_of` l) (split_lines after) ->
     re_sub_go w (before ++ LF :: text "go 1.23.1" ++ LF :: after)
       = before ++ LF :: text "go 1.23" ++ LF :: after) /\
  re_sub_go w (text "module main" ++ LF :: text "go 1.23.1" ++ [LF])
    = text "module main" ++ LF :: text "go 1.23" ++ [LF] /\
  (forall st perm data before after,
     files st !! child (AMD_DIR w) "go.mod" = Some (File perm data) ->
     universal_newlines data = before ++ LF :: text "go 1.23.1" ++ LF :: after ->
     Forall (fun l => ~ text "go " `prefix_of` l) (split_lines before) ->
     Forall (fun l => ~ text "go " `prefix_of` l) (split_lines after) ->
     patch_go_mod w st =
       (Value tt,
        mkState (<[child (AMD_DIR w) "go.mod" :=
                     File perm (before ++ LF :: text "go 1.23" ++ LF :: after)]>
                   (files st))
          (environ_PATH st)
          (trace st ++ [Eopen_w (child (AMD_DIR w) "go.mod"); Eprint GoModFixed]))).
Proof.
  split; [reflexivity|]. split; [reflexivity|].
  split; [apply re_sub_go_no_keyword|].
  split.
  { intros st data Hr HF. apply (patch_go_mod_unchanged w st data Hr).
    now apply re_sub_go_no_keyword. }
  split; [apply patch_go_mod_unchanged|]. split; [apply patch_go_mod_changed|].
  split; [apply re_sub_go_app|]. split; [apply re_sub_go_one_line|].
  split; [intros before after; apply re_sub_go_line_in_context; no_newline|].
  split.
  { intros after. rewrite re_sub_go_app. reflexivity. }
  split.
  { intros before. rewrite re_sub_go_app. reflexivity. }
  split; [intros before after; apply re_sub_go_line_in_context; no_newline|].
  split; [apply pinned_line_in_go_mod|]. split; [reflexivity|].
  intros st perm data before after Hl Hu Hb Ha.
  rewrite (patch_go_mod_changed w st perm data Hl); rewrite Hu.
  - now rewrite (pinned_line_in_go_mod w before after Hb Ha).
  - rewrite (pinned_line_in_go_mod w before after Hb Ha).
    intros E. apply app_inv_head in E. discriminate E.
Qed.

(** A cloned [go.mod] with the pinned line between two other lines. *)
Lemma go_version_pin_substitution_witness :
  read_file (files (patch_go_mod Sample.world ClonedRepository.state).2)
    (child (AMD_DIR Sample.world) "go.mod")
  = Some (text "module main" ++ LF :: text "go 1.23" ++ LF ::
          text "require example.org/m v1.0.0" ++ [LF]).
Proof.
  destruct (go_version_pin_substitution Sample.world)
    as (_ & _ & _ & _ & _ & _ & _ & _ & _ & _ & _ & _ & _ & _ & H).
  rewrite (H ClonedRepository.state (oct 644) ClonedRepository.go_mod
             (text "module main") (text "require example.org/m v1.0.0" ++ [LF])).
  - cbn [snd files]. unfold read_file.
    now rewrite (resolve_file _ _ _ _ (lookup_insert_eq _ _ _)).
  - vm_compute; reflexivity.
  - reflexivity.
  - repeat constructor; intros [k E]; discriminate E.
  - repeat constructor; intros [k E]; discriminate E.
Defined.

(** ** Permission repair *)

Lemma resolve_fuel_lookup n fs p q nd :
  resolve_fuel n fs p = Some (q, nd) ->
  fs !! q = Some nd /\ forall t, nd <> Symlink t.
Proof.
  revert p. induction n as [|n IH]; intros p; simpl;
    destruct (fs !! p) as [[perm data|perm|t]|] eqn:E; intros H;
    try discriminate; try (injection H as <- <-; split; [exact E | discriminate]).
  now apply (IH t).
Qed.

Lemma resolve_lookup fs p q nd :
  resolve fs p = Some (q, nd) -> fs !! q = Some nd.
Proof. intros H. now apply (resolve_fuel_lookup _ _ _ _ _ H). Qed.

Lemma repaired_perm_bits perm i :
  0 <= i ->
  Z.testbit (repaired_perm perm) i =
    (Z.testbit S_IFREG i || Z.testbit perm i || Z.testbit (oct 755) i)
    && Z.testbit S_IMODE i.
Proof.
  intros Hi. unfold repaired_perm.
  now rewrite Z.land_spec, !Z.lor_spec.
Qed.

Lemma repaired_perm_idempotent perm :
  repaired_perm (repaired_perm perm) = repaired_perm perm.
Proof.
  apply Z.bits_inj'. intros i Hi.
  rewrite (repaired_perm_bits (repaired_perm perm) i Hi), (repaired_perm_bits perm i Hi).
  destruct (Z.testbit S_IFREG i), (Z.testbit perm i), (Z.testbit (oct 755) i),
    (Z.testbit S_IMODE i); reflexivity.
Qed.


Lemma chmod_one_regular w st f q perm data :
  resolve (files st) f = Some (q, File perm data) ->
  w_chmod_refused w q = false ->
  chmod_one w f st =
    (Value tt,
     mkState (<[q := File (repaired_perm perm) data]> (files st))
       (environ_PATH st)
       (trace st ++ [Echmod f (Z.lor (Z.lor S_IFREG perm) (oct 755));
                     Eprint (ChmodSet (name f))])).
Proof.
  intros Hr Hc.
  unfold chmod_one, bind, get_files, try_except. cbn [files].
  unfold is_file. rewrite Hr.
  unfold Path_stat, bind, get_files, st_mode. cbn [files]. rewrite Hr.
  unfold ret, Path_chmod, bind, emit, get_files. cbn [files].
  rewrite Hr, Hc. unfold set_files, print, emit, set_perm, repaired_perm. cbn.
  now rewrite <- app_assoc.
Qed.

(** One iteration always goes on to the next, and changes at most the
    permission bits of one regular file. *)
Lemma chmod_one_cases w st f :
  (chmod_one w f st).1 = Value tt /\
  (files (chmod_one w f st).2 = files st \/
   exists q perm data,
     files st !! q = Some (File perm data) /\
     files (chmod_one w f st).2 = <[q := File (repaired_perm perm) data]> (files st)).
Proof.
  unfold chmod_one, bind, get_files, try_except. cbn [files].
  unfold is_file. destruct (resolve (files st) f) as [[q [perm data|perm|t]]|] eqn:Hr;
    try (split; [reflexivity | left; reflexivity]).
  unfold Path_stat, bind, get_files, st_mode. cbn [files]. rewrite Hr.
  unfold ret, Path_chmod, bind, emit, get_files. cbn [files]. rewrite Hr.
  destruct (w_chmod_refused w q).
  - split; [reflexivity | left; reflexivity].
  - split; [reflexivity|]. right. exists q, perm, data.
    split; [now apply (resolve_lookup _ _ _ _ Hr) | reflexivity].
Qed.

Lemma repaired_refl fs : repaired fs fs.
Proof. intros q. now left. Qed.

Lemma repaired_trans fs1 fs2 fs3 :
  repaired fs1 fs2 -> repaired fs2 fs3 -> repaired fs1 fs3.
Proof.
  intros H12 H23 q. destruct (H12 q) as [E1|(perm & data & E1 & E1')];
    destruct (H23 q) as [E2|(perm' & data' & E2 & E2')].
  - left. congruence.
  - right. exists perm', data'. split; congruence.
  - right. exists perm, data. split; congruence.
  - right. exists perm, data. split; [assumption|].
    rewrite E2'. rewrite E1' in E2. injection E2 as <- <-.
    now rewrite repaired_perm_idempotent.
Qed.

Lemma chmod_all_repaired w all_files st :
  (chmod_all w all_files st).1 = Value tt /\
  repaired (files st) (files (chmod_all w all_files st).2).
Proof.
  revert st. induction all_files as [|f fs IH]; intros st.
  - split; [reflexivity | apply repaired_refl].
  - unfold chmod_all. cbn [for_each]. unfold bind.
    destruct (chmod_one_cases w st f) as [Hv Hf].
    destruct (chmod_one w f st) as [r st1]. simpl in Hv, Hf. subst r.
    destruct (IH st1) as [Hv' Hr']. split; [exact Hv'|].
    eapply repaired_trans; [|exact Hr'].
    destruct Hf as [->|(q & perm & data & Hl & ->)]; [apply repaired_refl|].
    intros q'. destruct (decide (q = q')) as [<-|Hne].
    + right. exists perm, data. split; [exact Hl | apply lookup_insert_eq].
    + left. now apply lookup_insert_ne.
Qed.




(** ** The link loops *)

Lemma link_one_spec w f s e st :
  link_one w f s e st =
    if exists_ (files st) (link_path_of f) then
      (Value (s, e), logged st [Eprint (AlreadyExists (name f))])
    else if lexists (files st) (link_path_of f) || w_symlink_refused w (link_path_of f) then
      (Value (s, e + 1),
       logged st [Esymlink f (link_path_of f); Eprint (SymlinkFailed (name f))])
    else
      (Value (s + 1, e),
       mkState (<[link_path_of f := Symlink f]> (files st)) (environ_PATH st)
         (trace st ++ [Esymlink f (link_path_of f); Eprint (SymlinkCreated (name f))])).
Proof.
  unfold link_one, try_except, bind, get_files. cbn [files].
  fold (link_path_of f).
  destruct (exists_ (files st) (link_path_of f)); [reflexivity|].
  unfold os_symlink, bind, emit, get_files. cbn [files].
  destruct (lexists (files st) (link_path_of f) || w_symlink_refused w (link_path_of f)).
  - unfold raise, Exception, print, emit, ret, logged. cbn.
    now rewrite <- app_assoc.
  - unfold set_files, print, emit, ret. cbn. now rewrite <- app_assoc.
Qed.

(** The first pass reports on every file, in order, whatever fails. *)
Lemma link_all_reports w l s e st :
  exists s' e' evs,
    (link_all w l s e st).1 = Value (s', e') /\
    trace (link_all w l s e st).2 = trace st ++ evs /\
    omap reported evs = map name l.
Proof.
  revert s e st. induction l as [|f l IH]; intros s e st.
  - exists s, e, []. cbn. now rewrite app_nil_r.
  - cbn [link_all]. unfold bind. rewrite link_one_spec.
    destruct (exists_ (files st) (link_path_of f));
      [|destruct (lexists (files st) (link_path_of f)
                  || w_symlink_refused w (link_path_of f))]; cbn [fst snd].
    + destruct (IH s e (logged st [Eprint (AlreadyExists (name f))]))
        as (s' & e' & evs & Hv & Ht & Ho).
      exists s', e', (Eprint (AlreadyExists (name f)) :: evs).
      split; [exact Hv|]. split; [|cbn; now rewrite Ho].
      rewrite Ht. cbn. now rewrite <- app_assoc.
    + destruct (IH s (e + 1)
                  (logged st [Esymlink f (link_path_of f);
                              Eprint (SymlinkFailed (name f))]))
        as (s' & e' & evs & Hv & Ht & Ho).
      exists s', e', (Esymlink f (link_path_of f)
                      :: Eprint (SymlinkFailed (name f)) :: evs).
      split; [exact Hv|]. split; [|cbn; now rewrite Ho].
      rewrite Ht. cbn. now rewrite <- app_assoc.
    + match goal with
      | |- context [link_all w l (s + 1) e ?st0] =>
          destruct (IH (s + 1) e st0) as (s' & e' & evs & Hv & Ht & Ho)
      end.
      exists s', e', (Esymlink f (link_path_of f)
                      :: Eprint (SymlinkCreated (name f)) :: evs).
      split; [exact Hv|]. split; [|cbn; now rewrite Ho].
      rewrite Ht. cbn. now rewrite <- app_assoc.
Qed.

(** An entry that is there is never replaced. *)
Lemma link_one_keeps w f s e st p nd :
  files st !! p = Some nd -> files (link_one w f s e st).2 !! p = Some nd.
Proof.
  intros H. rewrite link_one_spec.
  destruct (exists_ (files st) (link_path_of f)); [exact H|].
  destruct (lexists (files st) (link_path_of f)) eqn:El; cbn [orb]; [exact H|].
  destruct (w_symlink_refused w (link_path_of f)); [exact H|].
  cbn [snd files]. rewrite lookup_insert_ne; [exact H|].
  intros <-. unfold lexists in El. now rewrite H in El.
Qed.

Ltac in_list := vm_compute; repeat (first [left; reflexivity | right]).
Ltac not_in_list :=
  vm_compute;
  let H := fresh "H" in
  intros H; repeat (destruct H as [H|H]; [discriminate H|]); exact H.

(** C3: in the first pass every executable file is reported on, in order,
    whatever fails (each link has its own [try]).  In the repair pass one
    [try] encloses the whole loop: with a stale link at the link path of
    [mp4dump], [symlink] fails for [mp4dump], the handler prints one warning
    and [mp4info], whose link path is free, is never processed.  The first
    pass, on the same files and the same file system, goes on and creates
    the link of [mp4info]. *)
Theorem repair_pass_stops_at_first_failure :
  (forall w l s e st,
     exists s' e' evs,
       (link_all w l s e st).1 = Value (s', e') /\
       trace (link_all w l s e st).2 = trace st ++ evs /\
       omap reported evs = map name l) /\
  missing_links DanglingLink.disk DanglingLink.bin_dir
    = [DanglingLink.mp4dump; DanglingLink.mp4info] /\
  lexists DanglingLink.disk (link_path_of DanglingLink.mp4info) = false /\
  trace (repair_links Sample.world DanglingLink.bin_dir DanglingLink.state).2
    = [Eprint CreatingMissing;
       Esymlink DanglingLink.mp4dump (link_path_of DanglingLink.mp4dump);
       Eprint (CouldNotVerify DanglingLink.bin_dir)] /\
  files (repair_links Sample.world DanglingLink.bin_dir DanglingLink.state).2
    !! link_path_of DanglingLink.mp4info = None /\
  (link_all Sample.world [DanglingLink.mp4dump; DanglingLink.mp4info] 0 0
     DanglingLink.state).1 = Value (1, 1) /\
  files (link_all Sample.world [DanglingLink.mp4dump; DanglingLink.mp4info] 0 0
           DanglingLink.state).2
    !! link_path_of DanglingLink.mp4info = Some (Symlink DanglingLink.mp4info).
Proof.
  split; [apply link_all_reports|].
  repeat split; vm_compute; reflexivity.
Qed.

Lemma link_one_occupied w f s e st :
  exists_ (files st) (link_path_of f) = true ->
  link_one w f s e st
    = (Value (s, e), logged st [Eprint (AlreadyExists (name f))]).
Proof. intros H. rewrite link_one_spec. now rewrite H. Qed.

Lemma link_one_dangling w f s e st :
  lexists (files st) (link_path_of f) = true ->
  exists_ (files st) (link_path_of f) = false ->
  link_one w f s e st
    = (Value (s, e + 1),
       logged st [Esymlink f (link_path_of f); Eprint (SymlinkFailed (name f))]).
Proof. intros Hl He. rewrite link_one_spec. now rewrite He, Hl. Qed.

(** C4: an entry at the link path is never replaced, and when
    [Path.exists()] sees it (a file, a directory, a link whose target is
    there) the file is reported as already there.  A dangling link is an
    entry that [Path.exists()] does not see: [symlink] is tried, fails
    because the path is taken, and the file is reported and counted as
    failed.  On a machine with a stale link at /usr/local/bin/mp4dump the
    first run prints "Failed to create symlink for mp4dump" and a summary
    with one error. *)
Theorem dangling_link_reported_as_failed :
  (forall w f s e st,
     exists_ (files st) (link_path_of f) = true ->
     link_one w f s e st
       = (Value (s, e), logged st [Eprint (AlreadyExists (name f))])) /\
  (forall w f s e st p nd,
     files st !! p = Some nd -> files (link_one w f s e st).2 !! p = Some nd) /\
  (forall w f s e st,
     lexists (files st) (link_path_of f) = true ->
     exists_ (files st) (link_path_of f) = false ->
     link_one w f s e st
       = (Value (s, e + 1),
          logged st [Esymlink f (link_path_of f); Eprint (SymlinkFailed (name f))])) /\
  files DanglingLink.fresh !! child usr_local_bin "mp4dump"
    = Some DanglingLink.stale /\
  In (Eprint (SymlinkFailed "mp4dump"))
     (trace (main Sample.world DanglingLink.fresh).2) /\
  ~ In (Eprint (AlreadyExists "mp4dump"))
       (trace (main Sample.world DanglingLink.fresh).2) /\
  In (Eprint (Summary 1 1)) (trace (main Sample.world DanglingLink.fresh).2) /\
  files (main Sample.world DanglingLink.fresh).2 !! child usr_local_bin "mp4dump"
    = Some DanglingLink.stale.
Proof.
  split; [apply link_one_occupied|]. split; [apply link_one_keeps|].
  split; [apply link_one_dangling|].
  split; [vm_compute; reflexivity|]. split; [in_list|].
  split; [not_in_list|]. split; [in_list | vm_compute; reflexivity].
Qed.

(** ** Directory listings *)

Lemma path_split (p : path) : p <> [] -> p = removelast p ++ [name p].
Proof.
  unfold name. induction p as [|a p IH]; [congruence|]. intros _.
  destruct p as [|b p]; [reflexivity|].
  change (removelast (a :: b :: p)) with (a :: removelast (b :: p)).
  change (last (a :: b :: p)) with (last (b :: p)).
  cbn [app]. f_equal. apply IH. discriminate.
Qed.

Lemma in_dir_split d p : in_dir d p = true -> p = d ++ [name p].
Proof.
  unfold in_dir. destruct p as [|a p]; [discriminate|].
  intros H. apply bool_decide_eq_true in H. rewrite <- H.
  apply path_split. discriminate.
Qed.

Lemma in_dir_child d n : in_dir d (child d n) = true.
Proof.
  unfold in_dir, child. destruct (d ++ [n]) eqn:E.
  - destruct d; discriminate.
  - rewrite <- E. apply bool_decide_eq_true. apply removelast_last.
Qed.

Lemma name_child d n : name (child d n) = n.
Proof. unfold name, child. now rewrite last_snoc. Qed.

Lemma elem_of_glob fs d pat f :
  f ∈ glob fs d pat <->
  is_Some (fs !! f) /\ in_dir d f = true /\ String.prefix pat (name f) = true.
Proof.
  unfold glob. rewrite list_elem_of_filter, list_elem_of_fmap.
  rewrite andb_true_iff. split.
  - intros [[Hd Hp] ([p nd] & -> & Hin)].
    apply elem_of_map_to_list in Hin. cbn in *. eauto.
  - intros ([nd Hl] & Hd & Hp). split; [now split|].
    exists (f, nd). split; [reflexivity | now apply elem_of_map_to_list].
Qed.

Lemma NoDup_glob fs d pat : NoDup (glob fs d pat).
Proof. unfold glob. apply NoDup_filter, NoDup_fst_map_to_list. Qed.

Lemma link_path_of_inj d f g :
  in_dir d f = true -> in_dir d g = true ->
  link_path_of f = link_path_of g -> f = g.
Proof.
  intros Hf Hg E. unfold link_path_of, child in E.
  apply app_inv_head in E. injection E as E.
  rewrite (in_dir_split d f Hf), (in_dir_split d g Hg). now rewrite E.
Qed.

Lemma elem_of_missing_links fs bin_dir f :
  f ∈ missing_links fs bin_dir <->
  is_Some (fs !! f) /\ in_dir bin_dir f = true /\
  is_file fs f = true /\ access_X_OK fs f = true /\
  exists_ fs (link_path_of f) = false.
Proof.
  unfold missing_links. rewrite list_elem_of_filter, elem_of_glob.
  rewrite !andb_true_iff, negb_true_iff.
  assert (String.prefix "" (name f) = true) by (now destruct (name f)). tauto.
Qed.

Lemma NoDup_missing_links fs bin_dir :
  NoDup (map link_path_of (missing_links fs bin_dir)).
Proof.
  apply NoDup_fmap_2_strong.
  - intros f g Hf Hg. apply elem_of_missing_links in Hf, Hg.
    apply (link_path_of_inj bin_dir); tauto.
  - unfold missing_links. apply NoDup_filter, NoDup_glob.
Qed.

(** ** Creating the missing links *)

Lemma lookup_with_links_other l fs p :
  (forall f, f ∈ l -> link_path_of f <> p) -> with_links l fs !! p = fs !! p.
Proof.
  revert fs. induction l as [|g l IH]; intros fs H; [reflexivity|].
  unfold with_links. cbn [foldl]. fold (with_links l (<[link_path_of g := Symlink g]> fs)).
  rewrite IH by (intros f Hf; apply H; now right).
  apply lookup_insert_ne, H. now left.
Qed.

Lemma lookup_with_links l fs f :
  NoDup (map link_path_of l) -> f ∈ l ->
  with_links l fs !! link_path_of f = Some (Symlink f).
Proof.
  revert fs. induction l as [|g l IH]; intros fs Hnd Hin; [inversion Hin|].
  cbn [map] in Hnd. apply NoDup_cons in Hnd as [Hg Hnd].
  unfold with_links. cbn [foldl]. fold (with_links l (<[link_path_of g := Symlink g]> fs)).
  apply elem_of_cons in Hin as [->|Hin]; [|now apply IH].
  rewrite lookup_with_links_other; [apply lookup_insert_eq|].
  intros f Hf E. apply Hg. rewrite <- E. apply list_elem_of_fmap. now exists f.
Qed.

Lemma create_links w l st :
  NoDup (map link_path_of l) ->
  Forall (fun f => lexists (files st) (link_path_of f) = false /\
                   w_symlink_refused w (link_path_of f) = false) l ->
  for_each l (fun exe_file =>
      os_symlink w exe_file (link_path_of exe_file) >>
      print (CreatedSymlink (name exe_file))) st
  = (Value tt,
     mkState (with_links l (files st)) (environ_PATH st)
       (trace st ++ link_events l)).
Proof.
  revert st. induction l as [|f l IH]; intros st Hnd HF.
  - cbn. unfold ret. destruct st; cbn. now rewrite app_nil_r.
  - cbn [map] in Hnd. apply NoDup_cons in Hnd as [Hf Hnd].
    apply Forall_cons in HF as [[Hl Hr] HF].
    cbn [for_each]. unfold bind at 1. unfold bind at 1.
    unfold os_symlink at 1. unfold bind at 1. unfold emit at 1.
    unfold bind at 1. unfold get_files at 1. cbn [files].
    rewrite Hl, Hr. cbn [orb]. unfold set_files at 1, print at 1, emit at 1.
    cbn [files environ_PATH trace].
    rewrite IH.
    + cbn [files environ_PATH trace link_events flat_map].
      unfold with_links. cbn [foldl]. now rewrite <- !app_assoc.
    + exact Hnd.
    + cbn [files]. rewrite Forall_forall in HF. apply Forall_forall.
      intros g Hg. destruct (HF g Hg) as [Hgl Hgr]. split; [|exact Hgr].
      unfold lexists in *. rewrite lookup_insert_ne; [exact Hgl|].
      intros E. apply Hf. rewrite E. apply list_elem_of_fmap. now exists g.
Qed.

(** C7 (amended): when no creation of a link fails (nothing, not even a
    dangling link, lies at the link path of a missing link, and the
    operating system refuses none), the repair pass creates exactly the
    missing links, one for each entry of the bin directory that is a regular
    file with an execute bit and whose link path does not exist, each
    pointing to its file, and leaves every other entry of the file system,
    the links that were there among them, as it was. *)
Theorem repair_creates_exactly_missing_links w st bin_dir :
  Forall (fun f => lexists (files st) (link_path_of f) = false /\
                   w_symlink_refused w (link_path_of f) = false)
         (missing_links (files st) bin_dir) ->
  (repair_links w bin_dir st).1 = Value tt /\
  (forall f,
     f ∈ missing_links (files st) bin_dir <->
     is_Some (files st !! f) /\ in_dir bin_dir f = true /\
     is_file (files st) f = true /\ access_X_OK (files st) f = true /\
     exists_ (files st) (link_path_of f) = false) /\
  (forall f,
     f ∈ missing_links (files st) bin_dir ->
     files (repair_links w bin_dir st).2 !! link_path_of f = Some (Symlink f)) /\
  (forall p,
     (forall f, f ∈ missing_links (files st) bin_dir -> link_path_of f <> p) ->
     files (repair_links w bin_dir st).2 !! p = files st !! p) /\
  events_since st (repair_links w bin_dir st).2 =
    match missing_links (files st) bin_dir with
    | [] => [Eprint AlreadyAvailable]
    | missing => Eprint CreatingMissing :: link_events missing
    end.
Proof.
  intros HF.
  pose proof (NoDup_missing_links (files st) bin_dir) as Hnd.
  assert (E : repair_links w bin_dir st =
    (Value tt,
     mkState (with_links (missing_links (files st) bin_dir) (files st))
       (environ_PATH st)
       (trace st ++ match missing_links (files st) bin_dir with
                    | [] => [Eprint AlreadyAvailable]
                    | missing => Eprint CreatingMissing :: link_events missing
                    end))).
  { unfold repair_links, try_except, bind at 1, get_files. cbn [files].
    destruct (missing_links (files st) bin_dir) as [|f l] eqn:Em.
    - reflexivity.
    - unfold bind at 1. unfold print at 1, emit at 1.
      set (st0 := mkState (files st) (environ_PATH st)
                    (trace st ++ [Eprint CreatingMissing])).
      rewrite (create_links w (f :: l) st0 Hnd HF).
      cbn [files environ_PATH trace st0]. now rewrite <- app_assoc. }
  rewrite E. cbn [fst snd files trace].
  split; [reflexivity|]. split; [apply elem_of_missing_links|].
  split; [intros f Hf; now apply lookup_with_links|].
  split; [intros p Hp; now apply lookup_with_links_other|].
  unfold events_since. cbn [snd trace]. now rewrite drop_app_length.
Qed.

(** The toolkit installed, both links missing, nothing refused. *)
Lemma repair_creates_exactly_missing_links_witness :
  missing_links (files ReadOnly.state) DanglingLink.bin_dir
    = [DanglingLink.mp4dump; DanglingLink.mp4info] /\
  files (repair_links Sample.world DanglingLink.bin_dir ReadOnly.state).2
    !! link_path_of DanglingLink.mp4info = Some (Symlink DanglingLink.mp4info) /\
  files (repair_links Sample.world DanglingLink.bin_dir ReadOnly.state).2
    !! DanglingLink.mp4info = files ReadOnly.state !! DanglingLink.mp4info.
Proof.
  assert (Em : missing_links (files ReadOnly.state) DanglingLink.bin_dir
               = [DanglingLink.mp4dump; DanglingLink.mp4info])
    by (vm_compute; reflexivity).
  destruct (repair_creates_exactly_missing_links Sample.world ReadOnly.state
              DanglingLink.bin_dir) as (_ & _ & Hin & Hout & _).
  { rewrite Em. repeat constructor; vm_compute; reflexivity. }
  split; [exact Em|]. split.
  - apply Hin. rewrite Em. apply elem_of_cons. right. apply elem_of_cons. now left.
  - apply Hout. rewrite Em. intros f Hf.
    apply elem_of_cons in Hf as [->|Hf];
      [|apply elem_of_cons in Hf as [->|Hf]; [|inversion Hf]];
      vm_compute; discriminate.
Defined.

(** C7, as stated, fails: the toolkit is installed, both links are missing
    and nothing is at their paths, but /usr/local/bin takes no new entry;
    the repair pass creates neither link. *)
Lemma repair_cannot_create_refused_links :
  exists_ (files ReadOnly.state) (BENTO4_DIR ReadOnly.world) = true /\
  missing_links (files ReadOnly.state) DanglingLink.bin_dir
    = [DanglingLink.mp4dump; DanglingLink.mp4info] /\
  (toolkit_step ReadOnly.world ReadOnly.state).1 = Value tt /\
  files (toolkit_step ReadOnly.world ReadOnly.state).2
    !! link_path_of DanglingLink.mp4dump = None /\
  files (toolkit_step ReadOnly.world ReadOnly.state).2
    !! link_path_of DanglingLink.mp4info = None.
Proof. repeat split; vm_compute; reflexivity. Qed.

(** ** Provisioning an archive *)

(** What a successful [provision_archive] went through. *)
Lemma provision_archive_inv w url zip d st st' :
  provision_archive w url zip d st = (Value tt, st') ->
  exists body fs1 fs2 bytes ms fs3,
    w_http w url = Some body /\
    write_file w zip body (files st) = Some fs1 /\
    makedirs w d fs1 = Some fs2 /\
    read_file fs2 zip = Some bytes /\
    w_zip w bytes = Some ms /\
    extract_members w d ms fs2 = Some fs3 /\
    is_Some (fs3 !! zip) /\
    st' = mkState (delete zip fs3) (environ_PATH st)
            (trace st ++ [Eurlretrieve url zip; Emkdir d; Eextractall zip d; Eremove zip]).
Proof.
  unfold provision_archive, urlretrieve, Path_mkdir, extractall, os_remove, lift_fs.
  unfold bind, emit, get_files. cbn [files environ_PATH trace].
  destruct (w_http w url) as [body|] eqn:Eh; [|discriminate].
  cbn [files environ_PATH trace].
  destruct (write_file w zip body (files st)) as [fs1|] eqn:E1; [|discriminate].
  unfold set_files at 1. cbn [files environ_PATH trace].
  destruct (makedirs w d fs1) as [fs2|] eqn:E2; [|discriminate].
  unfold set_files at 1. cbn [files environ_PATH trace].
  destruct (read_file fs2 zip) as [bytes|] eqn:E3; [|discriminate].
  destruct (w_zip w bytes) as [ms|] eqn:E4; [|discriminate].
  cbn [files environ_PATH trace].
  destruct (extract_members w d ms fs2) as [fs3|] eqn:E5; [|discriminate].
  unfold set_files at 1. cbn [files environ_PATH trace].
  destruct (fs3 !! zip) as [[perm data|perm|t]|] eqn:E6; try discriminate.
  all: unfold set_files; cbn [files environ_PATH trace]; intros H; injection H as <-.
  all: exists body, fs1, fs2, bytes, ms, fs3.
  all: rewrite <- !app_assoc; cbn [app]; repeat split; eauto.
Qed.

Lemma toolkit_step_absent w st :
  exists_ (files st) (BENTO4_DIR w) = false ->
  toolkit_step w st =
    (provision_archive w BENTO4_URL (bento4_zip_path w) (BENTO4_DIR w) >>
     print Bento4Installed >> first_pass w) st.
Proof.
  intros H. unfold toolkit_step. unfold bind at 1. unfold get_files. cbn [files].
  now rewrite H.
Qed.

Lemma toolkit_step_present w st :
  exists_ (files st) (BENTO4_DIR w) = true ->
  toolkit_step w st = (print Bento4Skipped >> repair_pass w) st.
Proof.
  intros H. unfold toolkit_step. unfold bind at 1. unfold get_files. cbn [files].
  now rewrite H.
Qed.



Section ChangesFiles.
Context (R : FS -> FS -> Prop).
Hypothesis R_refl : forall fs, R fs fs.
Hypothesis R_trans : forall fs1 fs2 fs3, R fs1 fs2 -> R fs2 fs3 -> R fs1 fs3.


Lemma changes_raise {A} e : changes_files R (@raise A e).
Proof. intros st. apply R_refl. Qed.






End ChangesFiles.






(** ** Unpacking *)

Lemma resolve_fuel_S n fs p :
  resolve_fuel (S n) fs p =
    match fs !! p with
    | None => None
    | Some (Symlink t) => resolve_fuel n fs t
    | Some nd => Some (p, nd)
    end.
Proof. reflexivity. Qed.


Lemma resolve_fuel_grows n fs fs' p r :
  (forall q nd, fs !! q = Some nd -> fs' !! q = Some nd) ->
  resolve_fuel n fs p = Some r -> resolve_fuel n fs' p = Some r.
Proof.
  intros Hk. revert p. induction n as [|n IH]; intros p; cbn [resolve_fuel];
    destruct (fs !! p) as [[perm data|perm|t]|] eqn:E; intros H;
    try discriminate; rewrite (Hk _ _ E); try exact H.
  now apply IH.
Qed.


Lemma adds_dirs_refl fs : adds_dirs fs fs.
Proof. intros p. now left. Qed.

Lemma adds_dirs_trans fs1 fs2 fs3 :
  adds_dirs fs1 fs2 -> adds_dirs fs2 fs3 -> adds_dirs fs1 fs3.
Proof.
  intros H12 H23 p. destruct (H12 p) as [E1|(N1 & perm & E1)];
    destruct (H23 p) as [E2|(N2 & perm' & E2)].
  - left. congruence.
  - right. split; [congruence|]. now exists perm'.
  - right. split; [assumption|]. exists perm. congruence.
  - congruence.
Qed.

Lemma adds_dirs_kept fs fs' p nd :
  adds_dirs fs fs' -> fs !! p = Some nd -> fs' !! p = Some nd.
Proof. intros H E. destruct (H p) as [E'|[N _]]; congruence. Qed.


Lemma adds_dirs_insert w fs q :
  lexists fs q = false -> adds_dirs fs (<[q := Dir (creat_perm w (oct 777))]> fs).
Proof.
  intros Hl p. destruct (decide (q = p)) as [<-|Hne].
  - right. unfold lexists in Hl. destruct (fs !! q); [discriminate|].
    split; [reflexivity|]. eexists. apply lookup_insert_eq.
  - left. now apply lookup_insert_ne.
Qed.

Lemma makedirs_from_grows w pre rest fs fs' :
  makedirs_from w pre rest fs = Some fs' -> adds_dirs fs fs'.
Proof.
  revert pre fs. induction rest as [|c rest IH]; intros pre fs; cbn [makedirs_from].
  - intros H. injection H as <-. apply adds_dirs_refl.
  - destruct (is_dir fs (child pre c)); [apply IH|].
    destruct (lexists fs (child pre c)) eqn:El; [discriminate|].
    intros H. eapply adds_dirs_trans; [|exact (IH _ _ H)].
    now apply adds_dirs_insert.
Qed.

Lemma is_dir_insert fs q perm : is_dir (<[q := Dir perm]> fs) q = true.
Proof.
  unfold is_dir. now rewrite (resolve_dir _ q perm (lookup_insert_eq _ _ _)).
Qed.

Lemma is_dir_grows fs fs' p :
  adds_dirs fs fs' -> is_dir fs p = true -> is_dir fs' p = true.
Proof.
  intros H. unfold is_dir, resolve.
  destruct (resolve_fuel MAXSYMLINKS fs p) as [[q nd]|] eqn:E; [|discriminate].
  rewrite (resolve_fuel_grows _ fs fs' p (q, nd)); [trivial | | exact E].
  intros q' nd'. now apply adds_dirs_kept.
Qed.

Lemma makedirs_from_is_dir w pre rest fs fs' :
  rest <> [] -> makedirs_from w pre rest fs = Some fs' ->
  is_dir fs' (pre ++ rest) = true.
Proof.
  revert pre fs. induction rest as [|c rest IH]; intros pre fs Hne; [congruence|].
  cbn [makedirs_from]. destruct rest as [|c' rest].
  - cbn [makedirs_from]. fold (child pre c).
    destruct (is_dir fs (child pre c)) eqn:Ed.
    + intros H. now injection H as <-.
    + destruct (lexists fs (child pre c)); [discriminate|].
      intros H. injection H as <-. apply is_dir_insert.
  - replace (pre ++ c :: c' :: rest) with (child pre c ++ c' :: rest)
      by (unfold child; now rewrite <- app_assoc).
    destruct (is_dir fs (child pre c)); [apply IH; discriminate|].
    destruct (lexists fs (child pre c)); [discriminate|].
    apply IH. discriminate.
Qed.













Lemma read_file_grows fs fs' p data :
  adds_dirs fs fs' -> read_file fs p = Some data -> read_file fs' p = Some data.
Proof.
  intros H. unfold read_file, resolve.
  destruct (resolve_fuel MAXSYMLINKS fs p) as [[q nd]|] eqn:E; [|discriminate].
  rewrite (resolve_fuel_grows _ fs fs' p (q, nd)); [trivial | | exact E].
  intros q' nd'. now apply adds_dirs_kept.
Qed.







(** ** The bin directory is missing *)

(** The [return] of lines 50-52 leaves [firstsetup] as a whole: with a
    [Bento4*] folder that has no [bin], the wrapper is not downloaded, the
    repository is not cloned, and the marker is written. *)
Lemma early_return_skips_wrapper_and_clone :
  (firstsetup NoBinFolder.world Sample.fresh).1 = Value tt /\
  In (Eprint (BinDirMissing (Sample.project ++ ["bento4"; "Bento4-SDK"; "bin"])))
     (trace (main NoBinFolder.world Sample.fresh).2) /\
  exists_ (files (main NoBinFolder.world Sample.fresh).2)
    (WRAPPER_DIR NoBinFolder.world) = false /\
  exists_ (files (main NoBinFolder.world Sample.fresh).2)
    (AMD_DIR NoBinFolder.world) = false /\
  is_file (files (main NoBinFolder.world Sample.fresh).2)
    (marker_file NoBinFolder.world) = true.
Proof.
  split; [vm_compute; reflexivity|]. split; [in_list|].
  repeat split; vm_compute; reflexivity.
Qed.

(** * Further properties of the script *)

(** ** Fatal paths of [firstsetup] *)

(** X1: a process that is not root and finds no marker exits with status 1
    right after the privilege check: nothing is installed, no file and no
    variable is changed, the marker is not written and the service is not
    started. *)
Theorem not_root_exits_before_any_change w st :
  w_geteuid w <> 0 ->
  exists_ (files st) (marker_file w) = false ->
  firstsetup w st = (Exited 1, logged st [Egeteuid; Eprint MustBeRoot]) /\
  main w st = (Exited 1, logged st [Egeteuid; Eprint MustBeRoot]).
Proof.
  intros Hu Hm.
  assert (E : firstsetup w st = (Exited 1, logged st [Egeteuid; Eprint MustBeRoot])).
  { unfold firstsetup, call, os_geteuid, print, bind, emit, ret, sys_exit.
    cbv beta iota zeta. cbn [files environ_PATH trace].
    apply Z.eqb_neq in Hu. rewrite Hu.
    cbn. unfold logged. cbn. rewrite <- ?app_assoc. reflexivity. }
  split; [exact E|].
  rewrite (main_marker_absent w st Hm). unfold bind. now rewrite E.
Qed.

(** User 1000 on the fresh sample machine. *)
Lemma not_root_exits_before_any_change_witness :
  main (with_geteuid 1000 Sample.world) Sample.fresh
    = (Exited 1, logged Sample.fresh [Egeteuid; Eprint MustBeRoot]).
Proof.
  apply (not_root_exits_before_any_change (with_geteuid 1000 Sample.world) Sample.fresh).
  - discriminate.
  - vm_compute; reflexivity.
Defined.

(** X2: as root, a package installation that exits with a status other
    than zero ends [firstsetup] with exit status 1 before anything is
    downloaded or changed; an [apt-get] that cannot be started at all is
    not a [CalledProcessError]: the exception leaves [firstsetup] uncaught.
    In both cases the file system and [PATH] are as before. *)
Theorem package_install_failure_is_fatal w st :
  w_geteuid w = 0 ->
  (w_apt_get w = ExitNonZero ->
     firstsetup w st
       = (Exited 1, logged st [Egeteuid; Eapt_get; Eprint SetupFailed])) /\
  (w_apt_get w = NotStarted ->
     firstsetup w st = (Raised OSError, logged st [Egeteuid; Eapt_get])).
Proof.
  intros Hu.
  split; intros Ha.
  all: unfold firstsetup, call, os_geteuid, print, bind, emit, ret, sys_exit.
  all: cbv beta iota zeta; cbn [files environ_PATH trace]; rewrite Hu; cbn [Z.eqb negb].
  all: cbv beta iota zeta.
  all: unfold setup_steps, try_except, apt_get_install, bind, emit.
  all: cbn [files environ_PATH trace]; rewrite Ha; cbn.
  all: unfold logged; cbn; rewrite <- ?app_assoc; reflexivity.
Qed.

Lemma package_install_failure_is_fatal_witness :
  firstsetup (with_apt_get ExitNonZero Sample.world) Sample.fresh
    = (Exited 1, logged Sample.fresh [Egeteuid; Eapt_get; Eprint SetupFailed]).
Proof.
  destruct (package_install_failure_is_fatal
              (with_apt_get ExitNonZero Sample.world) Sample.fresh eq_refl) as [H _].
  apply H. reflexivity.
Defined.

Lemma logged_logged st evs evs' : logged (logged st evs) evs' = logged st (evs ++ evs').
Proof. unfold logged. cbn. now rewrite <- app_assoc. Qed.

(** As root [firstsetup] is its [try] block, after the privilege check. *)
Lemma firstsetup_root w st :
  w_geteuid w = 0 ->
  firstsetup w st = call (setup_steps w) (logged st [Egeteuid]).
Proof.
  intros Hu. unfold firstsetup, call, os_geteuid, print, bind, emit, ret.
  cbv beta iota zeta. cbn [files environ_PATH trace]. rewrite Hu.
  reflexivity.
Qed.

(** With the packages installed the [try] block goes on with the steps. *)
Lemma setup_steps_installed w st :
  w_apt_get w = ExitZero ->
  setup_steps w st =
    try_except
      (toolkit_step w >> wrapper_step w >> clone_step w >> print SetupComplete)
      is_CalledProcessError
      (print SetupFailed >> sys_exit 1)
      (logged st [Eapt_get; Eprint PackagesInstalled]).
Proof.
  intros Ha. unfold setup_steps, try_except, apt_get_install, print.
  unfold bind at 1 2 3. unfold emit at 1 2. rewrite Ha.
  cbv beta iota zeta. unfold run_process, ret, emit.
  cbv beta iota zeta. cbn [files environ_PATH trace].
  unfold logged. now rewrite <- app_assoc.
Qed.

(** X3: a download that fails is no [CalledProcessError]: as root, with
    the packages installed and no toolkit directory, a toolkit archive that
    cannot be fetched ends [firstsetup] with an uncaught exception, not with
    the exit of the handler; no directory is created and nothing is
    changed. *)
Theorem download_failure_is_uncaught w st :
  w_geteuid w = 0 ->
  w_apt_get w = ExitZero ->
  exists_ (files st) (BENTO4_DIR w) = false ->
  w_http w BENTO4_URL = None ->
  firstsetup w st
    = (Raised OSError,
       logged st [Egeteuid; Eapt_get; Eprint PackagesInstalled;
                  Eurlretrieve BENTO4_URL (bento4_zip_path w)]).
Proof.
  intros Hu Ha Hd Hh.
  rewrite (firstsetup_root w st Hu). unfold call.
  rewrite (setup_steps_installed w _ Ha).
  rewrite logged_logged. cbn [app].
  set (st1 := logged st [Egeteuid; Eapt_get; Eprint PackagesInstalled]).
  unfold try_except. unfold bind at 1.
  rewrite (toolkit_step_absent w st1 Hd).
  unfold bind at 1. unfold provision_archive. unfold bind at 1.
  unfold urlretrieve. unfold bind at 1. unfold emit at 1. rewrite Hh.
  unfold raise. cbv beta iota zeta. cbn [is_CalledProcessError].
  unfold st1. cbn [files environ_PATH trace logged].
  unfold logged. cbn [files environ_PATH trace]. now rewrite <- app_assoc.
Qed.

Lemma download_failure_is_uncaught_witness :
  firstsetup (offline Sample.world) Sample.fresh
    = (Raised OSError,
       logged Sample.fresh
         [Egeteuid; Eapt_get; Eprint PackagesInstalled;
          Eurlretrieve BENTO4_URL (bento4_zip_path (offline Sample.world))]).
Proof.
  apply (download_failure_is_uncaught (offline Sample.world) Sample.fresh);
    vm_compute; reflexivity.
Defined.

(** ** [start] without a search path *)

(** X4: [start] never changes the file system, and it gets to the launch
    exactly when [PATH] is set: with [PATH] unset the first
    [os.environ['PATH']] raises [KeyError] after the announcement, and the
    service is not started. *)
Theorem start_needs_PATH w st :
  files (start w st).2 = files st /\
  ((start w st).1 = Value tt <-> environ_PATH st <> None) /\
  (environ_PATH st = None ->
     (start w st).1 = Raised KeyError /\
     events_since st (start w st).2 = [Eprint Starting]).
Proof.
  split; [apply start_keeps_files|].
  destruct (environ_PATH st) as [old|] eqn:HP.
  - rewrite (start_spec w st old HP). cbn [fst].
    split; [split; [discriminate | reflexivity] | discriminate].
  - rewrite (start_no_PATH w st HP). cbn [fst snd].
    split; [split; [discriminate | congruence]|].
    intros _. split; [reflexivity|].
    unfold events_since. cbn [trace]. now rewrite drop_app_length.
Qed.

(** ** The patch of [go.mod] is never fatal *)

Lemma patch_go_mod_eq w st :
  patch_go_mod w st =
    if exists_ (files st) (child (AMD_DIR w) "go.mod") then
      match read_file (files st) (child (AMD_DIR w) "go.mod") with
      | None => (Value tt, logged st [Eprint GoModFailed])
      | Some data =>
          if bool_decide (re_sub_go w (universal_newlines data)
                            <> universal_newlines data) then
            match write_file w (child (AMD_DIR w) "go.mod")
                    (re_sub_go w (universal_newlines data)) (files st) with
            | Some fs' =>
                (Value tt,
                 mkState fs' (environ_PATH st)
                   (trace st ++ [Eopen_w (child (AMD_DIR w) "go.mod");
                                 Eprint GoModFixed]))
            | None =>
                (Value tt,
                 logged st [Eopen_w (child (AMD_DIR w) "go.mod");
                            Eprint GoModFailed])
            end
          else (Value tt, st)
      end
    else (Value tt, st).
Proof.
  unfold patch_go_mod, try_except, open_w, lift_fs, print.
  unfold bind, emit, get_files, set_files, raise, ret, Exception, logged.
  cbv beta iota zeta. cbn [files environ_PATH trace].
  destruct (exists_ (files st) (child (AMD_DIR w) "go.mod")); [|reflexivity].
  destruct (read_file (files st) (child (AMD_DIR w) "go.mod")) as [data|];
    [|reflexivity].
  destruct (bool_decide (re_sub_go w (universal_newlines data)
                           <> universal_newlines data)); [|reflexivity].
  destruct (write_file w (child (AMD_DIR w) "go.mod")
              (re_sub_go w (universal_newlines data)) (files st)) as [fs'|];
    cbn [files environ_PATH trace]; rewrite <- app_assoc; reflexivity.
Qed.

(** X5: whatever is at [go.mod] (nothing, a directory, a file that cannot
    be written), [patch_go_mod] returns normally: every exception is caught
    and reported as a warning.  It logs nothing but the opening of [go.mod]
    for writing and its two messages, leaves [PATH] alone, and when it does
    not open [go.mod] for writing the file system is unchanged. *)
Theorem patch_go_mod_never_fails w st :
  (patch_go_mod w st).1 = Value tt /\
  Forall (patch_event w) (events_since st (patch_go_mod w st).2) /\
  environ_PATH (patch_go_mod w st).2 = environ_PATH st /\
  (~ In (Eopen_w (child (AMD_DIR w) "go.mod"))
        (events_since st (patch_go_mod w st).2) ->
   files (patch_go_mod w st).2 = files st).
Proof.
  unfold events_since. rewrite patch_go_mod_eq.
  destruct (exists_ (files st) (child (AMD_DIR w) "go.mod"));
    [destruct (read_file (files st) (child (AMD_DIR w) "go.mod")) as [data|];
     [destruct (bool_decide (re_sub_go w (universal_newlines data)
                               <> universal_newlines data));
      [destruct (write_file w (child (AMD_DIR w) "go.mod")
                   (re_sub_go w (universal_newlines data)) (files st)) as [fs'|]
      |]|]|];
    cbn [fst snd files environ_PATH trace logged];
    rewrite ?drop_all, ?drop_app_length.
  - split; [reflexivity|]. split; [|split; [reflexivity|]].
    + constructor; [now left|]. constructor; [right; now left | constructor].
    + intros Hn. destruct Hn. now left.
  - repeat split. constructor; [now left|].
    constructor; [right; now right | constructor].
  - repeat split; constructor.
  - repeat split. constructor; [right; now right | constructor].
  - repeat split; constructor.
Qed.

(** ** The shape of the lines the substitution rewrites *)

Lemma span_digits_inv w s ds r :
  span_digits w s = (ds, r) ->
  s = ds ++ r /\ all_digits w ds /\ no_digit_ahead w r.
Proof.
  revert ds r. induction s as [|c s IH]; intros ds r; cbn [span_digits].
  - intros H. injection H as <- <-. repeat split. constructor.
  - destruct (is_digit w c) eqn:Ec.
    + destruct (span_digits w s) as [ds' r'] eqn:E. intros H. injection H as <- <-.
      destruct (IH ds' r' eq_refl) as (-> & Hd & Hr).
      repeat split; [now constructor | exact Hr].
    + intros H. injection H as <- <-. repeat split; [constructor | exact Ec].
Qed.

Lemma span_digits_app w ds r :
  all_digits w ds -> no_digit_ahead w r -> span_digits w (ds ++ r) = (ds, r).
Proof.
  intros Hd Hr. induction Hd as [|c ds Hc _ IH]; cbn [app].
  - destruct r as [|c r]; [reflexivity|]. cbn [span_digits]. cbn in Hr. now rewrite Hr.
  - cbn [span_digits]. now rewrite Hc, IH.
Qed.

Lemma digits1_inv w s ds r :
  digits1 w s = Some (ds, r) ->
  s = ds ++ r /\ ds <> [] /\ all_digits w ds /\ no_digit_ahead w r.
Proof.
  unfold digits1. destruct (span_digits w s) as [ds' r'] eqn:E.
  destruct (span_digits_inv w s ds' r' E) as (Hs & Hd & Hr).
  destruct ds' as [|c ds']; [discriminate|].
  intros H. injection H as <- <-. repeat split; try assumption. discriminate.
Qed.

Lemma digits1_app w ds r :
  ds <> [] -> all_digits w ds -> no_digit_ahead w r ->
  digits1 w (ds ++ r) = Some (ds, r).
Proof.
  intros Hn Hd Hr. unfold digits1. rewrite (span_digits_app w ds r Hd Hr).
  destruct ds; [congruence | reflexivity].
Qed.

Lemma literal_app lit s : literal lit (lit ++ s) = Some s.
Proof.
  induction lit as [|a lit IH]; cbn [app literal]; [reflexivity|].
  now rewrite N.eqb_refl.
Qed.

Lemma dot_no_digit w s : no_digit_ahead w (DOT :: s).
Proof. reflexivity. Qed.

Lemma literal_dot s : literal [DOT] (DOT :: s) = Some s.
Proof. reflexivity. Qed.

Lemma match_go_pinned w major minor patch rest :
  major <> [] -> minor <> [] -> patch <> [] ->
  all_digits w major -> all_digits w minor -> all_digits w patch ->
  no_digit_ahead w rest ->
  match_go w (pinned_line major minor patch rest)
    = Some (major ++ DOT :: minor, rest).
Proof.
  intros H1 H2 H3 D1 D2 D3 Hr. unfold match_go, pinned_line.
  rewrite literal_app.
  rewrite (digits1_app w major _ H1 D1 (dot_no_digit w _)), literal_dot.
  rewrite (digits1_app w minor _ H2 D2 (dot_no_digit w _)), literal_dot.
  now rewrite (digits1_app w patch _ H3 D3 Hr).
Qed.

Lemma match_go_inv w l g rest :
  match_go w l = Some (g, rest) ->
  exists major minor patch,
    major <> [] /\ minor <> [] /\ patch <> [] /\
    all_digits w major /\ all_digits w minor /\ all_digits w patch /\
    no_digit_ahead w rest /\
    l = pinned_line major minor patch rest /\ g = major ++ DOT :: minor.
Proof.
  unfold match_go.
  destruct (literal (text "go ") l) as [s1|] eqn:E1; [|discriminate].
  destruct (digits1 w s1) as [[major s2]|] eqn:E2; [|discriminate].
  destruct (literal [DOT] s2) as [s3|] eqn:E3; [|discriminate].
  destruct (digits1 w s3) as [[minor s4]|] eqn:E4; [|discriminate].
  destruct (literal [DOT] s4) as [s5|] eqn:E5; [|discriminate].
  destruct (digits1 w s5) as [[patch s6]|] eqn:E6; [|discriminate].
  intros H. injection H as <- <-.
  apply literal_Some in E1, E3, E5.
  destruct (digits1_inv _ _ _ _ E2) as (-> & N1 & D1 & _).
  destruct (digits1_inv _ _ _ _ E4) as (-> & N2 & D2 & _).
  destruct (digits1_inv _ _ _ _ E6) as (-> & N3 & D3 & Hr).
  exists major, minor, patch. repeat split; try assumption.
  unfold pinned_line. rewrite E1, E3, E5. reflexivity.
Qed.

(** X6: the substitution changes a line exactly when the line is [go ],
    three non-empty runs of digits separated by dots, and a rest that does
    not go on with a digit; the line then loses the second dot and the third
    run, and keeps the rest.  So [go 1.23.1 // indirect] becomes
    [go 1.23 // indirect], and [go 1.2.3.4] becomes [go 1.2.4]. *)
Theorem go_line_rewritten_iff w l l' :
  fix_line w l = l' /\ l' <> l <->
  exists major minor patch rest,
    major <> [] /\ minor <> [] /\ patch <> [] /\
    all_digits w major /\ all_digits w minor /\ all_digits w patch /\
    no_digit_ahead w rest /\
    l = pinned_line major minor patch rest /\
    l' = truncated_line major minor rest.
Proof.
  split.
  - intros [E Hne]. unfold fix_line in E.
    destruct (match_go w l) as [[g rest]|] eqn:Em; [|congruence].
    destruct (match_go_inv w l g rest Em)
      as (major & minor & patch & N1 & N2 & N3 & D1 & D2 & D3 & Hr & -> & ->).
    exists major, minor, patch, rest. repeat split; try assumption.
    rewrite <- E. unfold truncated_line. now rewrite <- app_assoc.
  - intros (major & minor & patch & rest & N1 & N2 & N3 & D1 & D2 & D3 & Hr & -> & ->).
    split.
    + unfold fix_line.
      rewrite (match_go_pinned w major minor patch rest N1 N2 N3 D1 D2 D3 Hr).
      unfold truncated_line. now rewrite <- app_assoc.
    + intros E. apply (f_equal (@length N)) in E.
      unfold truncated_line, pinned_line in E.
      destruct patch as [|c patch]; [congruence|].
      repeat (first [rewrite length_app in E | progress cbn [length] in E]). lia.
Qed.

(** The line [go 1.2.3.4] is still a three-part version afterwards. *)
Lemma go_line_rewritten_iff_witness :
  fix_line Sample.world (text "go 1.2.3.4") = text "go 1.2.4" /\
  text "go 1.2.4" <> text "go 1.2.3.4".
Proof.
  apply (go_line_rewritten_iff Sample.world (text "go 1.2.3.4") (text "go 1.2.4")).
  exists (text "1"), (text "2"), (text "3"), (text ".4").
  repeat split; try discriminate; repeat constructor.
Defined.

(** ** The summary of the first pass *)

Lemma link_all_counts w l s e st :
  exists evs,
    trace (link_all w l s e st).2 = trace st ++ evs /\
    (link_all w l s e st).1
      = Value (s + count is_created evs, e + count is_failed evs) /\
    count is_created evs + count is_failed evs + count is_already evs
      = Z.of_nat (length l).
Proof.
  revert s e st. induction l as [|f l IH]; intros s e st.
  - exists []. cbn. rewrite app_nil_r, !Z.add_0_r. repeat split.
  - cbn [link_all]. unfold bind. rewrite link_one_spec.
    destruct (exists_ (files st) (link_path_of f));
      [|destruct (lexists (files st) (link_path_of f)
                  || w_symlink_refused w (link_path_of f))]; cbn [fst snd].
    + destruct (IH s e (logged st [Eprint (AlreadyExists (name f))]))
        as (evs & Ht & Hv & Hc).
      exists (Eprint (AlreadyExists (name f)) :: evs).
      split; [rewrite Ht; cbn; now rewrite <- app_assoc|].
      split; [rewrite Hv; reflexivity|].
      unfold count in *. cbn [List.filter is_created is_failed is_already length].
      lia.
    + destruct (IH s (e + 1)
                  (logged st [Esymlink f (link_path_of f);
                              Eprint (SymlinkFailed (name f))]))
        as (evs & Ht & Hv & Hc).
      exists (Esymlink f (link_path_of f) :: Eprint (SymlinkFailed (name f)) :: evs).
      split; [rewrite Ht; cbn; now rewrite <- app_assoc|].
      unfold count in *. cbn [List.filter is_created is_failed is_already length].
      split; [rewrite Hv; f_equal; f_equal; lia | lia].
    + match goal with
      | |- context [link_all w l (s + 1) e ?st0] =>
          destruct (IH (s + 1) e st0) as (evs & Ht & Hv & Hc)
      end.
      exists (Esymlink f (link_path_of f) :: Eprint (SymlinkCreated (name f)) :: evs).
      split; [rewrite Ht; cbn; now rewrite <- app_assoc|].
      unfold count in *. cbn [List.filter is_created is_failed is_already length].
      split; [rewrite Hv; f_equal; f_equal; lia | lia].
Qed.

(** X7: the first pass never stops early and its summary is exact: for
    every list of files and whatever [symlink] does, the loop returns, the
    count of successes has grown by the number of "Created symlink" lines,
    the count of errors by the number of "Failed to create symlink" lines,
    and these two with the "Already exists" lines account for every file. *)
Theorem first_pass_summary_is_exact w l s e st :
  (link_all w l s e st).1
    = Value (s + count is_created (events_since st (link_all w l s e st).2),
             e + count is_failed (events_since st (link_all w l s e st).2)) /\
  count is_created (events_since st (link_all w l s e st).2)
  + count is_failed (events_since st (link_all w l s e st).2)
  + count is_already (events_since st (link_all w l s e st).2)
    = Z.of_nat (length l).
Proof.
  destruct (link_all_counts w l s e st) as (evs & Ht & Hv & Hc).
  unfold events_since. rewrite Ht, drop_app_length. split; assumption.
Qed.

(** ** After the permission loop *)

Lemma resolve_fuel_repaired n fs fs' p q perm data :
  repaired fs fs' ->
  resolve_fuel n fs p = Some (q, File perm data) ->
  exists perm', resolve_fuel n fs' p = Some (q, File perm' data) /\
                (perm' = perm \/ perm' = repaired_perm perm).
Proof.
  intros HR. revert p. induction n as [|n IH]; intros p; cbn [resolve_fuel];
    destruct (fs !! p) as [[perm0 data0|perm0|t]|] eqn:E; intros H;
    try discriminate.
  1,2: injection H as <- <- <-;
       destruct (HR p) as [E'|(perm1 & data1 & E1 & E')]; rewrite E';
       [rewrite E; exists perm0; split; [reflexivity | now left]
       |rewrite E in E1; injection E1 as <- <-; exists (repaired_perm perm0);
        split; [reflexivity | now right]].
  destruct (HR p) as [E'|(perm1 & data1 & E1 & E')]; [|congruence].
  rewrite E', E. now apply IH.
Qed.

Lemma repaired_perm_executable perm : Z.land (repaired_perm perm) S_IXALL <> 0.
Proof.
  intros E. apply (f_equal (fun x => Z.testbit x 0)) in E.
  rewrite Z.land_spec, (repaired_perm_bits perm 0) in E by lia.
  change (Z.testbit (oct 755) 0) with true in E.
  change (Z.testbit S_IMODE 0) with true in E.
  change (Z.testbit S_IXALL 0) with true in E.
  rewrite orb_true_r in E. discriminate.
Qed.

Lemma chmod_all_reaches w all_files st f q perm data :
  f ∈ all_files ->
  resolve (files st) f = Some (q, File perm data) ->
  w_chmod_refused w q = false ->
  resolve (files (chmod_all w all_files st).2) f
    = Some (q, File (repaired_perm perm) data).
Proof.
  revert st perm. induction all_files as [|f0 l IH]; intros st perm Hin Hr Hc;
    [inversion Hin|].
  unfold chmod_all. cbn [for_each]. unfold bind.
  destruct (chmod_one_cases w st f0) as [Hv Hcases].
  destruct (decide (f0 = f)) as [->|Hne].
  - rewrite (chmod_one_regular w st f q perm data Hr Hc). cbn [fst snd].
    match goal with
    | |- context [for_each l (chmod_one w) ?st1] =>
        destruct (chmod_all_repaired w l st1) as [_ HR]; unfold chmod_all in HR;
        assert (Hr1 : resolve (files st1) f
                      = Some (q, File (repaired_perm perm) data))
    end.
    { cbn [files].
      assert (HR0 : repaired (files st)
                      (<[q := File (repaired_perm perm) data]> (files st))).
      { intros p. destruct (decide (q = p)) as [<-|Hn].
        - right. exists perm, data.
          split; [apply (resolve_lookup _ _ _ _ Hr) | apply lookup_insert_eq].
        - left. now apply lookup_insert_ne. }
      destruct (resolve_fuel_repaired _ _ _ f q perm data HR0 Hr) as (perm' & Hr' & _).
      unfold resolve. rewrite Hr'.
      pose proof (resolve_lookup _ _ _ _ Hr') as Hl.
      rewrite lookup_insert_eq in Hl. now injection Hl as <-. }
    destruct (resolve_fuel_repaired _ _ _ f q _ data HR Hr1) as (perm' & Hr' & [->| ->]);
      unfold resolve; rewrite Hr'; [reflexivity|].
    now rewrite repaired_perm_idempotent.
  - apply elem_of_cons in Hin as [->|Hin]; [congruence|].
    destruct (chmod_one w f0 st) as [r st1]. cbn [fst snd] in *. subst r.
    assert (HR0 : repaired (files st) (files st1)).
    { destruct Hcases as [->|(q0 & perm0 & data0 & Hl & ->)]; [apply repaired_refl|].
      intros p. destruct (decide (q0 = p)) as [<-|Hn].
      - right. exists perm0, data0. split; [exact Hl | apply lookup_insert_eq].
      - left. now apply lookup_insert_ne. }
    destruct (resolve_fuel_repaired _ _ _ f q perm data HR0 Hr) as (perm' & Hr' & Hp).
    pose proof (IH st1 perm' Hin Hr' Hc) as H. unfold chmod_all in H. rewrite H.
    destruct Hp as [->| ->]; [reflexivity | now rewrite repaired_perm_idempotent].
Qed.

(** X8: after the permission loop every regular file of the list whose
    [chmod] was not refused is executable: it is still a regular file with
    the contents it had, its mode has rwxr-xr-x added, and
    [os.access(f, os.X_OK)] holds, so the file is among the files that get a
    link.  This holds for files reached through links and whatever happens
    to the other files of the list. *)
Theorem chmod_loop_makes_executable w all_files st f q perm data :
  f ∈ all_files ->
  resolve (files st) f = Some (q, File perm data) ->
  w_chmod_refused w q = false ->
  (chmod_all w all_files st).1 = Value tt /\
  resolve (files (chmod_all w all_files st).2) f
    = Some (q, File (repaired_perm perm) data) /\
  is_file (files (chmod_all w all_files st).2) f = true /\
  access_X_OK (files (chmod_all w all_files st).2) f = true.
Proof.
  intros Hin Hr Hc.
  pose proof (chmod_all_reaches w all_files st f q perm data Hin Hr Hc) as H.
  split; [apply chmod_all_repaired|]. split; [exact H|].
  unfold is_file, access_X_OK. rewrite H. split; [reflexivity|].
  apply negb_true_iff, Z.eqb_neq, repaired_perm_executable.
Qed.

(** A tool unpacked with mode 0o644. *)
Lemma chmod_loop_makes_executable_witness :
  access_X_OK (files JustUnpacked.state) JustUnpacked.tool = false /\
  access_X_OK
    (files (chmod_all Sample.world [JustUnpacked.tool] JustUnpacked.state).2)
    JustUnpacked.tool = true.
Proof.
  split; [vm_compute; reflexivity|].
  apply (chmod_loop_makes_executable Sample.world [JustUnpacked.tool]
           JustUnpacked.state JustUnpacked.tool JustUnpacked.tool
           (oct 644) [1%N]).
  - apply elem_of_cons. now left.
  - vm_compute; reflexivity.
  - reflexivity.
Defined.

(** ** Running the repair pass again *)

Lemma repair_links_ok w st bin_dir :
  Forall (fun f => lexists (files st) (link_path_of f) = false /\
                   w_symlink_refused w (link_path_of f) = false)
         (missing_links (files st) bin_dir) ->
  repair_links w bin_dir st =
    (Value tt,
     mkState (with_links (missing_links (files st) bin_dir) (files st))
       (environ_PATH st)
       (trace st ++ match missing_links (files st) bin_dir with
                    | [] => [Eprint AlreadyAvailable]
                    | missing => Eprint CreatingMissing :: link_events missing
                    end)).
Proof.
  intros HF. pose proof (NoDup_missing_links (files st) bin_dir) as Hnd.
  unfold repair_links, try_except, bind at 1, get_files. cbn [files].
  destruct (missing_links (files st) bin_dir) as [|f l] eqn:Em.
  - reflexivity.
  - unfold bind at 1. unfold print at 1, emit at 1.
    set (st0 := mkState (files st) (environ_PATH st)
                  (trace st ++ [Eprint CreatingMissing])).
    rewrite (create_links w (f :: l) st0 Hnd HF).
    cbn [files environ_PATH trace st0]. now rewrite <- app_assoc.
Qed.

Lemma in_dir_unique d d' p : in_dir d p = true -> in_dir d' p = true -> d = d'.
Proof.
  unfold in_dir. destruct p; [discriminate|].
  intros H H'. apply bool_decide_eq_true in H, H'. congruence.
Qed.

Lemma in_dir_link_path f : in_dir usr_local_bin (link_path_of f) = true.
Proof. apply in_dir_child. Qed.

Lemma exists_grows fs fs' p :
  (forall q nd, fs !! q = Some nd -> fs' !! q = Some nd) ->
  exists_ fs p = true -> exists_ fs' p = true.
Proof.
  intros Hk. unfold exists_, resolve.
  destruct (resolve_fuel MAXSYMLINKS fs p) as [r|] eqn:E; [|discriminate].
  now rewrite (resolve_fuel_grows _ fs fs' p r Hk E).
Qed.

Lemma exists_link_to_file fs f perm data :
  fs !! link_path_of f = Some (Symlink f) -> fs !! f = Some (File perm data) ->
  exists_ fs (link_path_of f) = true.
Proof.
  intros Hl Hf. unfold exists_, resolve, MAXSYMLINKS.
  rewrite resolve_fuel_S, Hl, resolve_fuel_S, Hf. reflexivity.
Qed.

(** X9: the repair pass is idempotent.  When the bin directory holds no
    symbolic link and no creation of a link fails, the pass leaves nothing
    missing: a second pass finds no missing link, prints that the tools are
    available and changes nothing. *)
Theorem repair_pass_is_idempotent w st bin_dir :
  bin_dir <> usr_local_bin ->
  (forall f, f ∈ glob (files st) bin_dir "" -> is_symlink (files st) f = false) ->
  Forall (fun f => lexists (files st) (link_path_of f) = false /\
                   w_symlink_refused w (link_path_of f) = false)
         (missing_links (files st) bin_dir) ->
  missing_links (files (repair_links w bin_dir st).2) bin_dir = [] /\
  repair_links w bin_dir (repair_links w bin_dir st).2
    = (Value tt, logged (repair_links w bin_dir st).2 [Eprint AlreadyAvailable]).
Proof.
  intros Hd Hplain HF.
  rewrite (repair_links_ok w st bin_dir HF). cbn [snd].
  set (missing := missing_links (files st) bin_dir) in *.
  set (fs' := with_links missing (files st)).
  assert (Hkept : forall q nd, files st !! q = Some nd -> fs' !! q = Some nd).
  { intros q nd E. unfold fs'. rewrite lookup_with_links_other; [exact E|].
    intros f Hf <-. rewrite Forall_forall in HF. destruct (HF f Hf) as [Hl _].
    unfold lexists in Hl. now rewrite E in Hl. }
  assert (Hnone : missing_links fs' bin_dir = []).
  { apply elem_of_nil_inv. intros f Hf.
    apply elem_of_missing_links in Hf as (Hs & Hin & Hfile & Hx & Hne).
    assert (Hsame : fs' !! f = files st !! f).
    { unfold fs'. apply lookup_with_links_other. intros g _ E.
      apply Hd. apply (in_dir_unique _ _ f Hin). rewrite <- E. apply in_dir_link_path. }
    rewrite Hsame in Hs.
    assert (Hg : f ∈ glob (files st) bin_dir "").
    { apply elem_of_glob. split; [exact Hs|]. split; [exact Hin|]. now destruct (name f). }
    specialize (Hplain f Hg). unfold is_symlink in Hplain.
    destruct Hs as [nd Hnd]. rewrite Hnd in Hplain.
    destruct nd as [perm data|perm|t]; [| |discriminate].
    2:{ unfold is_file in Hfile. rewrite Hnd in Hsame.
        now rewrite (resolve_dir _ _ _ Hsame) in Hfile. }
    rewrite Hnd in Hsame.
    destruct (exists_ (files st) (link_path_of f)) eqn:He.
    - rewrite (exists_grows _ fs' _ Hkept He) in Hne. discriminate.
    - assert (Hm : f ∈ missing).
      { apply elem_of_missing_links. unfold is_file, access_X_OK in *.
        rewrite (resolve_file _ _ _ _ Hsame) in Hfile, Hx.
        rewrite (resolve_file _ _ _ _ Hnd). eauto. }
      rewrite (exists_link_to_file fs' f perm data) in Hne; [discriminate| |exact Hsame].
      unfold fs'. apply lookup_with_links; [apply NoDup_missing_links | exact Hm]. }
  split; [exact Hnone|].
  rewrite repair_links_ok; cbn [files]; rewrite Hnone; [|constructor].
  reflexivity.
Qed.

(** The toolkit installed and both links missing: after one pass nothing is
    missing. *)
Lemma repair_pass_is_idempotent_witness :
  missing_links (files ReadOnly.state) DanglingLink.bin_dir
    = [DanglingLink.mp4dump; DanglingLink.mp4info] /\
  missing_links
    (files (repair_links Sample.world DanglingLink.bin_dir ReadOnly.state).2)
    DanglingLink.bin_dir = [].
Proof.
  split; [vm_compute; reflexivity|].
  apply (repair_pass_is_idempotent Sample.world ReadOnly.state DanglingLink.bin_dir).
  - discriminate.
  - assert (E : glob (files ReadOnly.state) DanglingLink.bin_dir ""
                = [DanglingLink.mp4dump; DanglingLink.mp4info])
      by (vm_compute; reflexivity).
    rewrite E. intros f Hf.
    apply elem_of_cons in Hf as [->|Hf];
      [|apply elem_of_cons in Hf as [->|Hf]; [|inversion Hf]];
      vm_compute; reflexivity.
  - assert (E : missing_links (files ReadOnly.state) DanglingLink.bin_dir
                = [DanglingLink.mp4dump; DanglingLink.mp4info])
      by (vm_compute; reflexivity).
    rewrite E. repeat constructor; vm_compute; reflexivity.
Defined.

(** ** The next start *)

Lemma main_completes_leaves_marker w st :
  exists_ (files st) (marker_file w) = false ->
  (main w st).1 = Value tt ->
  exists_ (files (main w st).2) (marker_file w) = true.
Proof.
  intros Hm Hv.
  destruct (firstsetup w st) as [r st1] eqn:E.
  assert (Hr : r = Value tt).
  { destruct r as [[]|e|c|]; [reflexivity| | |];
      destruct (main_firstsetup_fails w st Hm) as [_ Hn];
      try (rewrite E; cbn; discriminate); now destruct (Hn tt). }
  subst r.
  rewrite (main_after_firstsetup w st st1 Hm E), open_marker_then_start in *.
  destruct (write_file w (marker_file w) marker_text (files st1)) as [fs2|] eqn:W;
    [|discriminate].
  rewrite start_keeps_files. cbn [files].
  apply (read_file_exists _ _ marker_text), (read_after_write w _ _ _ _ W).
Qed.

(** X10: the bootstrap runs once.  After a process start that found no
    marker and got as far as the service, the next start in the same
    project directory, whoever runs it and whatever the network does, finds
    the marker: it runs no step of [firstsetup], logs only what [start]
    logs, and changes no file. *)
Theorem next_start_skips_firstsetup w w' st st' :
  PROJECT_DIR w' = PROJECT_DIR w ->
  exists_ (files st) (marker_file w) = false ->
  (main w st).1 = Value tt ->
  files st' = files (main w st).2 ->
  exists_ (files st') (marker_file w') = true /\
  Forall launch_event (events_since st' (main w' st').2) /\
  files (main w' st').2 = files st'.
Proof.
  intros Hp Hm Hv Hf.
  assert (He : exists_ (files st') (marker_file w') = true).
  { unfold marker_file. rewrite Hp, Hf. now apply main_completes_leaves_marker. }
  split; [exact He|]. split; [now apply marker_present_launch_only|].
  rewrite (main_marker_present w' st' He). apply start_keeps_files.
Qed.

(** The sample machine: root installs, then user 1000 starts offline. *)
Lemma next_start_skips_firstsetup_witness :
  files (main (offline (with_geteuid 1000 Sample.world))
           (mkState (files (main Sample.world Sample.fresh).2)
              (Some "/usr/bin:/bin") [])).2
    = files (main Sample.world Sample.fresh).2.
Proof.
  apply (next_start_skips_firstsetup Sample.world
           (offline (with_geteuid 1000 Sample.world)) Sample.fresh
           (mkState (files (main Sample.world Sample.fresh).2)
              (Some "/usr/bin:/bin") [])).
  - reflexivity.
  - vm_compute; reflexivity.
  - vm_compute; reflexivity.
  - reflexivity.
Defined.

(** ** The footprint of [firstsetup] *)

Lemma land_lor_755 m : Z.land (Z.lor m (oct 755)) (oct 755) = oct 755.
Proof.
  apply Z.bits_inj'. intros i _. rewrite Z.land_spec, Z.lor_spec.
  destruct (Z.testbit m i), (Z.testbit (oct 755) i); reflexivity.
Qed.

Ltac footprint :=
  repeat emits_step;
  try (cbn [firstsetup_footprint];
       first [exact I | reflexivity | apply land_lor_755
             | left; reflexivity | right; reflexivity]).

Section Footprint.
Context (w : World).
Let P := firstsetup_footprint w.

Lemma footprint_link_all l s e : emits_only P (link_all w l s e).
Proof.
  revert s e. induction l as [|f l IH]; intros s e; cbn [link_all].
  - apply emits_ret.
  - apply emits_bind; [|intros c; apply IH].
    unfold link_one, os_symlink, print, P. footprint.
Qed.

Lemma footprint_first_pass : emits_only P (first_pass w).
Proof.
  unfold first_pass, print. emits_step; [unfold P; footprint|].
  emits_step; [unfold P; footprint|]. emits_step; [unfold P; footprint|].
  emits_step; [unfold chmod_all, chmod_one, Path_chmod, print, P; footprint|].
  emits_step; [unfold P; footprint|]. emits_step; [unfold P; footprint|].
  emits_step; [apply footprint_link_all|].
  emits_step; [unfold P; footprint|].
  apply emits_verify_links; intros; exact I.
Qed.

Lemma footprint_repair_pass : emits_only P (repair_pass w).
Proof. unfold repair_pass, repair_links, os_symlink, print, P. footprint. Qed.

Lemma footprint_toolkit_step : emits_only P (toolkit_step w).
Proof.
  unfold toolkit_step, print. emits_step; [unfold P; footprint|]. emits_step.
  - emits_step;
      [unfold provision_archive, urlretrieve, Path_mkdir, extractall, os_remove, P;
       footprint|].
    emits_step; [unfold P; footprint | apply footprint_first_pass].
  - emits_step; [unfold P; footprint | apply footprint_repair_pass].
Qed.

Lemma footprint_wrapper_step : emits_only P (wrapper_step w).
Proof.
  unfold wrapper_step, provision_archive, urlretrieve, Path_mkdir, extractall,
    os_remove, Path_chmod, print, P.
  footprint.
Qed.

Lemma footprint_clone_step : emits_only P (clone_step w).
Proof. unfold clone_step, patch_go_mod, git_clone, open_w, print, P. footprint. Qed.

Lemma footprint_firstsetup : emits_only P (firstsetup w).
Proof.
  unfold firstsetup, os_geteuid.
  emits_step. emits_step; [unfold P; footprint|].
  emits_step; [unfold print, P; footprint|].
  unfold setup_steps, apt_get_install, print.
  emits_step; [|unfold P; footprint].
  emits_step; [unfold P; footprint|]. emits_step; [unfold P; footprint|].
  emits_step; [apply footprint_toolkit_step|].
  emits_step; [apply footprint_wrapper_step|].
  emits_step; [apply footprint_clone_step | unfold P; footprint].
Qed.
End Footprint.

(** X11: what [firstsetup] touches.  In every run, whatever fails: it
    downloads only the two archives, each to its own temporary path, creates
    and unpacks only the two dependency directories, removes only the two
    temporary paths, passes to [chmod] only modes that hold rwxr-xr-x, makes
    links only in /usr/local/bin under the name of the file linked, clones
    only into the repository directory, opens for writing only [go.mod], and
    never starts the service. *)
Theorem firstsetup_stays_in_its_footprint w st :
  Forall (firstsetup_footprint w) (events_since st (firstsetup w st).2).
Proof. apply extends_events_since, footprint_firstsetup. Qed.

(** ** The [return] of the first pass *)

Ltac report_free :=
  repeat emits_step; try reflexivity; try (split; reflexivity).

Lemma returns_of_emits {A} (m : M A) :
  emits_only (fun e => bin_dir_report e = false) m -> returns_at_missing_bin m.
Proof. intros H st. left. apply H. Qed.

Lemma returns_bind_prefix {A B} (m : M A) (k : A -> M B) :
  emits_only (fun e => bin_dir_report e = false /\ wrapper_or_clone_event e = false) m ->
  (forall a, returns_at_missing_bin (k a)) ->
  returns_at_missing_bin (bind m k).
Proof.
  intros Hm Hk st. unfold bind. specialize (Hm st).
  assert (Hm' : extends (fun e => bin_dir_report e = false) st (m st).2)
    by (eapply extends_weaken; [|exact Hm]; now intros e [? _]).
  destruct (m st) as [[a|e|c|] st1]; cbn [fst snd] in *; try (left; exact Hm').
  destruct (Hk a st1) as [H|(Hr & evs & b & Ht & Hf)].
  - left. eapply extends_trans; eassumption.
  - right. split; [exact Hr|]. destruct Hm as (evs0 & Ht0 & Hf0).
    exists (evs0 ++ evs), b. split.
    + now rewrite Ht, Ht0, <- !app_assoc.
    + now apply Forall_app.
Qed.

Lemma returns_bind_suffix {A B} (m : M A) (k : A -> M B) :
  returns_at_missing_bin m ->
  (forall a, emits_only (fun e => bin_dir_report e = false) (k a)) ->
  returns_at_missing_bin (bind m k).
Proof.
  intros Hm Hk st. unfold bind. specialize (Hm st).
  destruct (m st) as [[a|e|c|] st1]; cbn [fst snd] in *.
  2-4: destruct Hm as [H|(Hr & Hx)];
    [left; exact H | right; split; [first [discriminate Hr | reflexivity] | exact Hx]].
  destruct Hm as [H|(Hr & _)]; [|discriminate].
  left. eapply extends_trans; [exact H | apply Hk].
Qed.

Lemma returns_try_except {A} (body handler : M A) catches :
  returns_at_missing_bin body ->
  emits_only (fun e => bin_dir_report e = false) handler ->
  returns_at_missing_bin (try_except body catches handler).
Proof.
  intros Hb Hh st. unfold try_except. specialize (Hb st).
  destruct (body st) as [[a|e|c|] st1]; cbn [fst snd] in *; try exact Hb.
  destruct (catches e); [|exact Hb].
  destruct Hb as [H|(Hr & _)]; [|discriminate].
  left. eapply extends_trans; [exact H | apply Hh].
Qed.

Lemma report_free_link_all w l s e :
  emits_only (fun e => bin_dir_report e = false) (link_all w l s e).
Proof.
  revert s e. induction l as [|f l IH]; intros s e; cbn [link_all].
  - apply emits_ret.
  - apply emits_bind; [|intros c; apply IH].
    unfold link_one, os_symlink, print. report_free.
Qed.

Lemma returns_first_pass w : returns_at_missing_bin (first_pass w).
Proof.
  unfold first_pass. apply returns_bind_prefix; [report_free|]. intros fs.
  destruct (glob fs (BENTO4_DIR w) "Bento4") as [|candidate ?].
  - apply returns_of_emits. unfold print. report_free.
  - destruct (negb (exists_ fs (child candidate "bin"))).
    + intros st. right. split; [reflexivity|]. exists [], (child candidate "bin").
      split; [reflexivity | constructor].
    + apply returns_of_emits.
      unfold chmod_all, chmod_one, Path_chmod, verify_links, print.
      repeat emits_step; try reflexivity; apply report_free_link_all.
Qed.

Lemma returns_toolkit_step w : returns_at_missing_bin (toolkit_step w).
Proof.
  unfold toolkit_step. apply returns_bind_prefix; [report_free|]. intros fs.
  destruct (negb _).
  - apply returns_bind_prefix.
    { unfold provision_archive, urlretrieve, Path_mkdir, extractall, os_remove.
      report_free. }
    intros _. apply returns_bind_prefix; [unfold print; report_free|].
    intros _. apply returns_first_pass.
  - apply returns_of_emits.
    unfold repair_pass, repair_links, os_symlink, print. report_free.
Qed.

Lemma returns_setup_steps w : returns_at_missing_bin (setup_steps w).
Proof.
  unfold setup_steps. apply returns_try_except; [|unfold print; report_free].
  apply returns_bind_prefix; [unfold apt_get_install; report_free|]. intros _.
  apply returns_bind_prefix; [unfold print; report_free|]. intros _.
  apply returns_bind_suffix; [apply returns_toolkit_step|]. intros _.
  unfold wrapper_step, clone_step, patch_go_mod, provision_archive, urlretrieve,
    Path_mkdir, extractall, os_remove, Path_chmod, git_clone, open_w, print.
  report_free.
Qed.

Lemma returns_firstsetup_body w :
  returns_at_missing_bin
    (let* uid := os_geteuid w in
     (if negb (uid =? 0) then print MustBeRoot >> sys_exit 1 else ret tt) >>
     setup_steps w).
Proof.
  apply returns_bind_prefix; [unfold os_geteuid; report_free|]. intros uid.
  apply returns_bind_prefix; [unfold print; report_free|]. intros _.
  apply returns_setup_steps.
Qed.

(** X12: the report that the bin directory of the toolkit is missing is
    the last thing [firstsetup] does.  Whenever a run prints it,
    [firstsetup] returns normally right there: no event of the wrapper step
    or of the clone step is logged, in that run the wrapper is not
    downloaded and the repository is not cloned; and when the marker was
    absent the script goes on to open the marker for writing. *)
Theorem missing_bin_dir_ends_firstsetup w st b :
  Eprint (BinDirMissing b) ∈ events_since st (firstsetup w st).2 ->
  (firstsetup w st).1 = Value tt /\
  last (events_since st (firstsetup w st).2) = Some (Eprint (BinDirMissing b)) /\
  Forall (fun e => wrapper_or_clone_event e = false)
    (events_since st (firstsetup w st).2) /\
  (exists_ (files st) (marker_file w) = false ->
   Eopen_w (marker_file w) ∈ events_since st (main w st).2).
Proof.
  intros Hin.
  assert (H : (firstsetup w st).1 = Value tt /\
              exists evs, events_since st (firstsetup w st).2
                          = evs ++ [Eprint (BinDirMissing b)] /\
                Forall (fun e => wrapper_or_clone_event e = false) evs).
  { revert Hin. unfold firstsetup, call.
    destruct (returns_firstsetup_body w st) as [H|(Hr & evs & b' & Ht & Hf)].
    - intros Hin. exfalso.
      assert (Hq : Forall (fun e => bin_dir_report e = false)
                     (events_since st
                        (call (let* uid := os_geteuid w in
                               (if negb (uid =? 0) then print MustBeRoot >> sys_exit 1
                                else ret tt) >> setup_steps w) st).2)).
      { apply extends_events_since. unfold call.
        destruct ((let* uid := os_geteuid w in _) st) as [[[]|e|c|] st1]; exact H. }
      rewrite Forall_forall in Hq. specialize (Hq _ Hin). discriminate.
    - destruct ((let* uid := os_geteuid w in _) st) as [[[]|e|c|] st1];
        try discriminate.
      cbn [fst snd] in *. unfold events_since. rewrite Ht, drop_app_length.
      intros Hin. split; [reflexivity|].
      apply elem_of_app in Hin as [Hin|Hin].
      + rewrite Forall_forall in Hf. destruct (Hf _ Hin). discriminate.
      + apply list_elem_of_singleton in Hin. injection Hin as ->.
        exists evs. split; [reflexivity|].
        eapply Forall_impl; [exact Hf|]. now intros e [_ ?]. }
  destruct H as (Hv & evs & He & Hf).
  split; [exact Hv|]. rewrite He. split; [apply last_snoc|].
  split; [apply Forall_app; split; [exact Hf | now repeat constructor]|].
  intros Hm.
  destruct (firstsetup w st) as [r st1] eqn:E. cbn [fst snd] in *. subst r.
  rewrite (main_after_firstsetup w st st1 Hm E), open_marker_then_start.
  assert (Ht : exists evs1, trace st1 = trace st ++ evs1).
  { destruct (emits_firstsetup (fun _ => True) w) with (st := st) as (evs1 & Ht & _);
      try (intros; exact I).
    rewrite E in Ht. now exists evs1. }
  destruct Ht as (evs1 & Ht).
  destruct (write_file w (marker_file w) marker_text (files st1)) as [fs2|].
  - destruct (emits_start (fun _ => True) w) with
      (st := mkState fs2 (environ_PATH st1) (trace st1 ++ [Eopen_w (marker_file w)]))
      as (evs2 & Ht2 & _); try (intros; exact I).
    unfold events_since. rewrite Ht2. cbn [trace]. rewrite Ht, <- !app_assoc.
    rewrite drop_app_length. apply elem_of_app. right. apply elem_of_app. left.
    apply list_elem_of_singleton. reflexivity.
  - unfold events_since. cbn [snd trace]. rewrite Ht, <- !app_assoc.
    rewrite drop_app_length. apply elem_of_app. right.
    apply list_elem_of_singleton. reflexivity.
Qed.

(** The fresh sample machine, with a toolkit archive that has no [bin]. *)
Lemma missing_bin_dir_ends_firstsetup_witness :
  (firstsetup NoBinFolder.world Sample.fresh).1 = Value tt /\
  Forall (fun e => wrapper_or_clone_event e = false)
    (events_since Sample.fresh (firstsetup NoBinFolder.world Sample.fresh).2).
Proof.
  destruct (missing_bin_dir_ends_firstsetup NoBinFolder.world Sample.fresh
              (Sample.project ++ ["bento4"; "Bento4-SDK"; "bin"]))
    as (Hv & _ & Hf & _).
  - apply list_elem_of_In. in_list.
  - split; assumption.
Defined.

(** ** A toolkit archive that is no archive *)

Lemma extends_call P (body : M unit) st :
  extends P st (body st).2 -> extends P st (call body st).2.
Proof. unfold call. now destruct (body st) as [[[]|e|c|] st1]. Qed.

Lemma extends_try_except {A} P (body handler : M A) catches st :
  extends P st (body st).2 -> emits_only P handler ->
  extends P st (try_except body catches handler st).2.
Proof.
  intros Hb Hh. unfold try_except.
  destruct (body st) as [[a|e|c|] st1]; cbn [snd] in *; try exact Hb.
  destruct (catches e); [|exact Hb].
  eapply extends_trans; [exact Hb | apply Hh].
Qed.

Lemma extends_bind_keeps {A B} P (m : M A) (k : A -> M B) st :
  extends P st (m st).2 -> files (m st).2 = files st ->
  (forall a st1, files st1 = files st -> extends P st1 (k a st1).2) ->
  extends P st (bind m k st).2.
Proof.
  intros Hm Hf Hk. unfold bind.
  destruct (m st) as [[a|e|c|] st1]; cbn [snd] in *; try exact Hm.
  eapply extends_trans; [exact Hm | now apply Hk].
Qed.

Lemma extends_bind {A B} P (m : M A) (k : A -> M B) st :
  extends P st (m st).2 -> (forall a, emits_only P (k a)) ->
  extends P st (bind m k st).2.
Proof.
  intros Hm Hk. unfold bind.
  destruct (m st) as [[a|e|c|] st1]; cbn [snd] in *; try exact Hm.
  eapply extends_trans; [exact Hm | apply Hk].
Qed.

Lemma is_dir_exists fs p : is_dir fs p = true -> exists_ fs p = true.
Proof. unfold is_dir, exists_. now destruct (resolve fs p). Qed.

Ltac from_emits :=
  lazymatch goal with
  | |- extends ?P ?st (?m ?st).2 =>
      let H := fresh in assert (H : emits_only P m); [|exact (H st)]
  end.

(** With the toolkit directory there, no run downloads the toolkit. *)
Lemma toolkit_present_no_download w st :
  exists_ (files st) (BENTO4_DIR w) = true ->
  extends (fun e => toolkit_download e = false) st (firstsetup w st).2.
Proof.
  intros Hd. unfold firstsetup. apply extends_call.
  apply extends_bind_keeps;
    [from_emits; unfold os_geteuid; report_free | reflexivity|].
  intros uid st1 E1.
  apply extends_bind_keeps.
  { from_emits. unfold print. report_free. }
  { unfold print, bind, emit, sys_exit, ret. now destruct (negb (uid =? 0)). }
  intros _ st2 E2. unfold setup_steps.
  apply extends_try_except; [|unfold print; report_free].
  apply extends_bind_keeps.
  { from_emits. unfold apt_get_install. report_free. }
  { unfold apt_get_install, run_process, bind, emit, ret, raise.
    now destruct (w_apt_get w). }
  intros _ st3 E3.
  apply extends_bind_keeps; [from_emits; unfold print; report_free | reflexivity|].
  intros _ st4 E4.
  apply extends_bind.
  - rewrite toolkit_step_present by (now rewrite E4, E3, E2, E1).
    from_emits. unfold repair_pass, repair_links, os_symlink, print. report_free.
  - intros _.
    unfold wrapper_step, clone_step, patch_go_mod, provision_archive, urlretrieve,
      Path_mkdir, extractall, os_remove, Path_chmod, git_clone, open_w, print.
    report_free.
Qed.

Lemma BENTO4_DIR_not_root w : BENTO4_DIR w <> [].
Proof. unfold BENTO4_DIR, child. now destruct (PROJECT_DIR w). Qed.

(** X13: a toolkit download that is no ZIP archive leaves a toolkit that no
    later run repairs.  As root, with the packages installed and no toolkit
    directory, when the body is stored and the directory is made but the
    body is not an archive, [firstsetup] ends with an uncaught [BadZipFile]
    right after the extraction is tried; the directory made for the toolkit
    and the downloaded file stay behind, and therefore no later run of
    [firstsetup] on these files downloads the toolkit again, whatever the
    network then delivers. *)
Theorem corrupt_toolkit_archive_is_not_retried w st body fs1 fs2 :
  w_geteuid w = 0 ->
  w_apt_get w = ExitZero ->
  exists_ (files st) (BENTO4_DIR w) = false ->
  w_http w BENTO4_URL = Some body ->
  w_zip w body = None ->
  write_file w (bento4_zip_path w) body (files st) = Some fs1 ->
  makedirs w (BENTO4_DIR w) fs1 = Some fs2 ->
  firstsetup w st
    = (Raised BadZipFile,
       mkState fs2 (environ_PATH st)
         (trace st ++ [Egeteuid; Eapt_get; Eprint PackagesInstalled;
                       Eurlretrieve BENTO4_URL (bento4_zip_path w);
                       Emkdir (BENTO4_DIR w);
                       Eextractall (bento4_zip_path w) (BENTO4_DIR w)])) /\
  is_dir fs2 (BENTO4_DIR w) = true /\
  read_file fs2 (bento4_zip_path w) = Some body /\
  forall w' st',
    PROJECT_DIR w' = PROJECT_DIR w -> files st' = fs2 ->
    Forall (fun e => toolkit_download e = false)
      (events_since st' (firstsetup w' st').2).
Proof.
  intros Hu Ha Hd Hh Hz E1 E2.
  assert (Hdir : is_dir fs2 (BENTO4_DIR w) = true)
    by (apply (makedirs_from_is_dir w [] (BENTO4_DIR w) fs1 fs2
                 (BENTO4_DIR_not_root w) E2)).
  assert (Hread : read_file fs2 (bento4_zip_path w) = Some body)
    by (apply (read_file_grows fs1 fs2); [exact (makedirs_from_grows _ _ _ _ _ E2)|];
        exact (read_after_write _ _ _ _ _ E1)).
  split; [|split; [exact Hdir|split; [exact Hread|]]].
  - rewrite (firstsetup_root w st Hu). unfold call.
    rewrite (setup_steps_installed w _ Ha).
    rewrite logged_logged. cbn [app].
    set (st1 := logged st [Egeteuid; Eapt_get; Eprint PackagesInstalled]).
    unfold try_except. unfold bind at 1.
    rewrite (toolkit_step_absent w st1 Hd).
    unfold bind at 1. unfold provision_archive.
    unfold urlretrieve, Path_mkdir, extractall, lift_fs.
    unfold bind, emit, get_files, set_files, raise.
    cbv beta iota zeta. cbn [files environ_PATH trace]. rewrite Hh.
    cbv beta iota zeta. cbn [files environ_PATH trace].
    unfold st1 at 1. unfold logged at 1. cbn [files environ_PATH trace].
    rewrite E1. cbv beta iota zeta. cbn [files environ_PATH trace].
    rewrite E2. cbv beta iota zeta. cbn [files environ_PATH trace].
    rewrite Hread, Hz. cbv beta iota zeta. cbn [is_CalledProcessError].
    unfold st1, logged. cbn [files environ_PATH trace].
    rewrite <- ?app_assoc. reflexivity.
  - intros w' st' Hp Hf. apply extends_events_since, toolkit_present_no_download.
    rewrite Hf. unfold BENTO4_DIR. rewrite Hp. now apply is_dir_exists.
Qed.

(** The fresh sample machine, behind a network that delivers no archive. *)
Lemma corrupt_toolkit_archive_is_not_retried_witness :
  (firstsetup CorruptArchive.world Sample.fresh).1 = Raised BadZipFile /\
  is_dir (files (firstsetup CorruptArchive.world Sample.fresh).2)
    (BENTO4_DIR CorruptArchive.world) = true.
Proof.
  destruct (corrupt_toolkit_archive_is_not_retried CorruptArchive.world Sample.fresh
              [80%N; 75%N; 1%N]
              (<[bento4_zip_path CorruptArchive.world
                   := File (oct 644) [80%N; 75%N; 1%N]]> Sample.disk)
              (<[BENTO4_DIR CorruptArchive.world := Dir (oct 755)]>
                 (<[bento4_zip_path CorruptArchive.world
                      := File (oct 644) [80%N; 75%N; 1%N]]> Sample.disk)))
    as (E & Hd & _); try (vm_compute; reflexivity).
  rewrite E. split; [reflexivity | exact Hd].
Defined.

(** ** The wrapper binary *)

Lemma provision_archive_keeps_PATH w url zip d st st' :
  provision_archive w url zip d st = (Value tt, st') ->
  environ_PATH st' = environ_PATH st.
Proof.
  intros H.
  destruct (provision_archive_inv _ _ _ _ _ _ H)
    as (? & ? & ? & ? & ? & ? & _ & _ & _ & _ & _ & _ & _ & ->).
  reflexivity.
Qed.



(** ** The verification of the links *)

Lemma print_eq m st : print m st = (Value tt, logged st [Eprint m]).
Proof. reflexivity. Qed.

Lemma verify_loop fs exes l st :
  (forall link, link ∈ l -> is_symlink fs link = true) ->
  exists evs,
    for_each l
      (fun link =>
         if existsb (fun exe => String.eqb (name exe) (name link)) exes
         then match fs !! link with
              | Some (Symlink t) => print (Verified (name link) t)
              | _ => raise OSError
              end
         else ret tt) st
    = (Value tt, logged st evs) /\
    forall link t,
      link ∈ l ->
      existsb (fun exe => String.eqb (name exe) (name link)) exes = true ->
      fs !! link = Some (Symlink t) ->
      Eprint (Verified (name link) t) ∈ evs.
Proof.
  revert st. induction l as [|link0 l IH]; intros st Hl.
  - exists []. split.
    + cbn [for_each]. unfold ret, logged. rewrite app_nil_r. now destruct st.
    + intros link t Hin. inversion Hin.
  - assert (Hl' : forall link, link ∈ l -> is_symlink fs link = true)
      by (intros link Hin; apply Hl; now right).
    pose proof (Hl link0 (list_elem_of_here _ _)) as Hs. unfold is_symlink in Hs.
    cbn [for_each]. unfold bind at 1.
    destruct (existsb (fun exe => String.eqb (name exe) (name link0)) exes) eqn:Ee.
    + destruct (fs !! link0) as [[| |t0]|] eqn:E0; try discriminate.
      rewrite print_eq. cbv beta iota zeta.
      destruct (IH (logged st [Eprint (Verified (name link0) t0)]) Hl')
        as (evs & E & Hev).
      exists (Eprint (Verified (name link0) t0) :: evs). split.
      * rewrite E. now rewrite logged_logged.
      * intros link t Hin He Hlk. apply elem_of_cons in Hin as [->|Hin].
        -- rewrite E0 in Hlk. injection Hlk as ->. now left.
        -- right. now apply (Hev link t).
    + unfold ret. cbv beta iota zeta.
      destruct (IH st Hl') as (evs & E & Hev). exists evs. split; [exact E|].
      intros link t Hin He Hlk. apply elem_of_cons in Hin as [->|Hin].
      * congruence.
      * now apply (Hev link t).
Qed.

Lemma verify_links_reports exes st :
  exists evs,
    verify_links exes st = (Value tt, logged st evs) /\
    forall exe t,
      exe ∈ exes ->
      exists_ (files st) usr_local_bin = true ->
      files st !! link_path_of exe = Some (Symlink t) ->
      Eprint (Verified (name exe) t) ∈ evs.
Proof.
  unfold verify_links. unfold bind at 1. unfold get_files.
  cbv beta iota zeta. cbn [files].
  destruct (exists_ (files st) usr_local_bin) eqn:Hb.
  - unfold bind at 1. rewrite print_eq. cbv beta iota zeta.
    match goal with
    | |- context [for_each ?l ?body ?st1] =>
        destruct (verify_loop (files st) exes l st1) as (evs & E & Hev)
    end.
    { intros link Hin. now apply list_elem_of_filter in Hin as [Hs _]. }
    rewrite E, logged_logged. eexists. split; [reflexivity|].
    intros exe t Hin _ Hl. right.
    rewrite <- (name_child usr_local_bin (name exe)). fold (link_path_of exe).
    apply Hev.
    + apply list_elem_of_filter. split; [unfold is_symlink; now rewrite Hl|].
      apply elem_of_glob. split; [eauto|]. split; [apply in_dir_child|].
      now destruct (name (link_path_of exe)).
    + apply existsb_exists. exists exe. split; [now apply list_elem_of_In|].
      unfold link_path_of. rewrite name_child. apply String.eqb_refl.
    + exact Hl.
  - rewrite print_eq. eexists. split; [reflexivity|]. intros; discriminate.
Qed.

(** X15: the verification at the end of the first pass only reports.  It
    never fails and changes neither the file system nor [PATH]; and it
    prints [VERIFIED] for every symbolic link in /usr/local/bin that has the
    name of an executable file of the toolkit, with the target the link
    has: a link that was there before and points somewhere else, or
    nowhere, is reported in the same way as a link to the toolkit. *)
Theorem verification_accepts_any_target exes st :
  (verify_links exes st).1 = Value tt /\
  files (verify_links exes st).2 = files st /\
  environ_PATH (verify_links exes st).2 = environ_PATH st /\
  forall exe t,
    exe ∈ exes ->
    exists_ (files st) usr_local_bin = true ->
    files st !! link_path_of exe = Some (Symlink t) ->
    Eprint (Verified (name exe) t) ∈ events_since st (verify_links exes st).2.
Proof.
  destruct (verify_links_reports exes st) as (evs & E & Hev). rewrite E.
  cbn [fst snd files environ_PATH trace logged]. repeat split.
  intros exe t Hin Hb Hl. unfold events_since, logged. cbn [trace].
  rewrite drop_app_length. now apply Hev.
Qed.

(** The link left by an older installation, whose target is gone, is
    reported as verified. *)
Lemma verification_accepts_any_target_witness :
  Eprint (Verified "mp4dump" ["opt"; "bento4-old"; "bin"; "mp4dump"])
    ∈ events_since DanglingLink.state
        (verify_links [DanglingLink.mp4dump] DanglingLink.state).2.
Proof.
  destruct (verification_accepts_any_target [DanglingLink.mp4dump] DanglingLink.state)
    as (_ & _ & _ & H).
  apply (H DanglingLink.mp4dump ["opt"; "bento4-old"; "bin"; "mp4dump"]).
  - apply list_elem_of_here.
  - vm_compute; reflexivity.
  - vm_compute; reflexivity.
Defined.
